(** * TWT demo: connection retry loop, iTWT command handlers, watchdog timer

    A shallow embedding of [main.c] of the TWT demo example.  The wireless
    connection manager, the WHD driver, the RTOS and the watchdog are external
    collaborators: every call to one of them is recorded as an [event] of the
    world's trace, and the values they return are read from the world. *)

From Stdlib Require Import ZArith List Bool String Ascii Lia.
Import ListNotations.
Local Open Scope string_scope.
Local Open Scope list_scope.
Local Open Scope Z_scope.

(** ** Machine integers *)

(** [cy_rslt_t] is [uint32_t]; the command handlers return [int]. *)
Definition cy_rslt_t := Z.

Definition to_uint32 (z : Z) : Z := z mod 2 ^ 32.

(** Conversion of a 32-bit value to [int] (two's complement, as GCC does). *)
Definition to_int (z : Z) : Z :=
  let u := z mod 2 ^ 32 in if u <? 2 ^ 31 then u else u - 2 ^ 32.

Definition cy_rslt_wf (r : cy_rslt_t) : Prop := 0 <= r < 2 ^ 32.

(** ** Macros *)

Definition WIFI_SSID : string := "".
Definition WIFI_KEY : string := "".
Definition MAX_WIFI_CONN_RETRIES : Z := 15.
Definition IP_STR_LEN : Z := 16.
Definition WDT_TIMEOUT_MS : Z := 4000.
Definition CY_RSLT_SUCCESS : cy_rslt_t := 0.
(** [#define CY_RSLT_ERROR ( -1 )], returned through [cy_rslt_t]. *)
Definition CY_RSLT_ERROR : cy_rslt_t := to_uint32 (-1).

(** ** Types of the connection manager and of the driver *)

Inductive cy_wcm_security_t := CY_WCM_SECURITY_OPEN | CY_WCM_SECURITY_WPA2_AES_PSK.
Inductive cy_wcm_wifi_band_t := CY_WCM_WIFI_BAND_ANY | CY_WCM_WIFI_BAND_5GHZ | CY_WCM_WIFI_BAND_2_4GHZ.
Inductive cy_wcm_itwt_profile_t :=
  CY_WCM_ITWT_PROFILE_NONE | CY_WCM_ITWT_PROFILE_IDLE | CY_WCM_ITWT_PROFILE_ACTIVE.
Inductive cy_wcm_interface_t := CY_WCM_INTERFACE_TYPE_STA | CY_WCM_INTERFACE_TYPE_AP.

Definition WIFI_SECURITY := CY_WCM_SECURITY_WPA2_AES_PSK.
Definition WIFI_BAND := CY_WCM_WIFI_BAND_ANY.

Record cy_wcm_ap_credentials_t := mk_credentials {
  SSID : string;
  password : string;
  security : cy_wcm_security_t
}.

Record cy_wcm_connect_params_t := mk_connect_params {
  ap_credentials : cy_wcm_ap_credentials_t;
  band : cy_wcm_wifi_band_t;
  itwt_profile : cy_wcm_itwt_profile_t
}.

(** The structure after [memset(&conn_params, 0, sizeof ...)]: empty strings
    and the enumerators of value 0. *)
Definition conn_params_zero : cy_wcm_connect_params_t :=
  mk_connect_params (mk_credentials "" "" CY_WCM_SECURITY_OPEN)
                    CY_WCM_WIFI_BAND_ANY CY_WCM_ITWT_PROFILE_NONE.

Record whd_twt_teardown_params_t := mk_teardown_params {
  negotiation_type : Z;
  flow_id : Z;
  bcast_twt_id : Z;
  teardown_all_twt : Z
}.

(** Modelled from the spec: the enumerator [TWT_CTRL_NEGO_TYPE_0] is declared
    in the driver's headers, which are not part of the sources; the spec gives
    negotiation type 0. *)
Definition TWT_CTRL_NEGO_TYPE_0 : Z := 0.

(** ** Timers *)

Inductive cy_timer_trigger_type_t := CY_TIMER_TYPE_PERIODIC | CY_TIMER_TYPE_ONCE.
Inductive timer_callback := cb_wdt_handler.

Record cy_timer_t := mk_timer {
  timer_type : option cy_timer_trigger_type_t;
  timer_cb : option timer_callback;
  timer_arg : Z;
  timer_period : option Z
}.

Definition timer_uninit : cy_timer_t := mk_timer None None 0 None.

(** ** Events: the calls made to the external collaborators *)

Inductive printf_arg := ArgS (s : string) | ArgX32 (x : Z).

Inductive event :=
| Call_printf (fmt : string) (args : list printf_arg)
| Call_is_connected_to_ap (ret : bool)
| Call_disconnect_ap (ret : cy_rslt_t)
| Call_connect_ap (params : cy_wcm_connect_params_t) (ret : cy_rslt_t) (v4 : Z)
| Call_delay_milliseconds (ms : Z)
| Call_twt_teardown (ifc : cy_wcm_interface_t) (p : whd_twt_teardown_params_t) (ret : cy_rslt_t)
| Call_watchdog_ConfigureTime (t : Z)
| Call_init_timer (ty : cy_timer_trigger_type_t) (cb : timer_callback) (arg : Z)
| Call_start_timer (ms : Z)
| Call_library (name : string) (ret : cy_rslt_t).

(** ** The world: globals of [main.c] and the environment *)

Record world := mk_world {
  conn_params : cy_wcm_connect_params_t;       (* static conn_params *)
  wdt_timer_t : cy_timer_t;                    (* static wdt_timer_t *)
  ap_connected : bool;                         (* association state held by the WCM *)
  disconnect_outcome : cy_rslt_t;              (* what cy_wcm_disconnect_ap will return *)
  associate_outcomes : nat -> cy_rslt_t * Z;   (* k-th next cy_wcm_connect_ap: code, IPv4 *)
  teardown_outcome : cy_rslt_t;                (* what whd_wifi_twt_teardown will return *)
  library_outcome : string -> cy_rslt_t;       (* init calls of the other libraries *)
  trace : list event                           (* calls made so far, oldest first *)
}.

Definition set_conn_params (p : cy_wcm_connect_params_t) (w : world) : world :=
  mk_world p (wdt_timer_t w) (ap_connected w) (disconnect_outcome w)
           (associate_outcomes w) (teardown_outcome w) (library_outcome w) (trace w).

Definition set_wdt_timer (t : cy_timer_t) (w : world) : world :=
  mk_world (conn_params w) t (ap_connected w) (disconnect_outcome w)
           (associate_outcomes w) (teardown_outcome w) (library_outcome w) (trace w).

Definition set_ap_connected (b : bool) (w : world) : world :=
  mk_world (conn_params w) (wdt_timer_t w) b (disconnect_outcome w)
           (associate_outcomes w) (teardown_outcome w) (library_outcome w) (trace w).

Definition set_associate_outcomes (f : nat -> cy_rslt_t * Z) (w : world) : world :=
  mk_world (conn_params w) (wdt_timer_t w) (ap_connected w) (disconnect_outcome w)
           f (teardown_outcome w) (library_outcome w) (trace w).

Definition emit (e : event) (w : world) : world :=
  mk_world (conn_params w) (wdt_timer_t w) (ap_connected w) (disconnect_outcome w)
           (associate_outcomes w) (teardown_outcome w) (library_outcome w) (trace w ++ [e]).

(** ** A state monad with undefined behaviour and fuel *)

Inductive result (A : Type) :=
| Done (a : A)      (* the function returned [a] *)
| Undefined         (* undefined behaviour: a read outside an array, a buffer overflow *)
| OutOfFuel.        (* the loop was cut off by the model *)
Arguments Done {A} a.
Arguments Undefined {A}.
Arguments OutOfFuel {A}.

Definition M (A : Type) : Type := world -> result A * world.

Definition ret {A} (a : A) : M A := fun w => (Done a, w).

Definition bind {A B} (m : M A) (k : A -> M B) : M B :=
  fun w => match m w with
           | (Done a, w') => k a w'
           | (Undefined, w') => (Undefined, w')
           | (OutOfFuel, w') => (OutOfFuel, w')
           end.

Definition undefined {A} : M A := fun w => (Undefined, w).
Definition out_of_fuel {A} : M A := fun w => (OutOfFuel, w).

Notation "x <- m ;; k" := (bind m (fun x => k))
  (at level 61, m at next level, right associativity).
Notation "m ;;; k" := (bind m (fun _ => k))
  (at level 61, right associativity).

(** ** External calls *)

(** Format strings are recorded as they are written in the source, escape
    sequences included; [PRIx32] is the conversion of [<inttypes.h>]. *)
Definition PRIx32 : string := "x".

Definition printf (fmt : string) (args : list printf_arg) : M unit :=
  fun w => (Done tt, emit (Call_printf fmt args) w).

Definition cy_wcm_is_connected_to_ap : M bool :=
  fun w => (Done (ap_connected w), emit (Call_is_connected_to_ap (ap_connected w)) w).

(** A successful disconnection clears the association; a failed one leaves it. *)
Definition cy_wcm_disconnect_ap : M cy_rslt_t :=
  fun w =>
    let r := disconnect_outcome w in
    let w1 := if r =? CY_RSLT_SUCCESS then set_ap_connected false w else w in
    (Done r, emit (Call_disconnect_ap r) w1).

(** [cy_wcm_connect_ap(&conn_params, &ip_addr)]: consumes the next outcome of
    the environment and returns the code with the IPv4 address written to
    [ip_addr.ip.v4]. *)
Definition cy_wcm_connect_ap : M (cy_rslt_t * Z) :=
  fun w =>
    let o := associate_outcomes w 0%nat in
    let w1 := set_associate_outcomes (fun n => associate_outcomes w (S n)) w in
    let w2 := if fst o =? CY_RSLT_SUCCESS then set_ap_connected true w1 else w1 in
    (Done o, emit (Call_connect_ap (conn_params w) (fst o) (snd o)) w2).

Definition cy_rtos_delay_milliseconds (ms : Z) : M unit :=
  fun w => (Done tt, emit (Call_delay_milliseconds ms) w).

Definition whd_wifi_twt_teardown (ifc : cy_wcm_interface_t)
    (p : whd_twt_teardown_params_t) : M cy_rslt_t :=
  fun w => (Done (teardown_outcome w), emit (Call_twt_teardown ifc p (teardown_outcome w)) w).

Definition thread_ap_watchdog_ConfigureTime (t : Z) : M unit :=
  fun w => (Done tt, emit (Call_watchdog_ConfigureTime t) w).

Definition cy_rtos_init_timer (ty : cy_timer_trigger_type_t) (cb : timer_callback)
    (arg : Z) : M unit :=
  fun w => (Done tt, emit (Call_init_timer ty cb arg)
                          (set_wdt_timer (mk_timer (Some ty) (Some cb) arg None) w)).

Definition cy_rtos_start_timer (ms : Z) : M unit :=
  fun w =>
    let t := wdt_timer_t w in
    (Done tt, emit (Call_start_timer ms)
                   (set_wdt_timer (mk_timer (timer_type t) (timer_cb t) (timer_arg t) (Some ms)) w)).

Definition library_call (name : string) : M cy_rslt_t :=
  fun w => (Done (library_outcome w name), emit (Call_library name (library_outcome w name)) w).

(** Writes to the fields of the global [conn_params]. *)
Definition modify_conn_params (f : cy_wcm_connect_params_t -> cy_wcm_connect_params_t) : M unit :=
  fun w => (Done tt, set_conn_params (f (conn_params w)) w).

Definition set_SSID (s : string) (p : cy_wcm_connect_params_t) :=
  let c := ap_credentials p in
  mk_connect_params (mk_credentials s (password c) (security c)) (band p) (itwt_profile p).
Definition set_password (s : string) (p : cy_wcm_connect_params_t) :=
  let c := ap_credentials p in
  mk_connect_params (mk_credentials (SSID c) s (security c)) (band p) (itwt_profile p).
Definition set_security (x : cy_wcm_security_t) (p : cy_wcm_connect_params_t) :=
  let c := ap_credentials p in
  mk_connect_params (mk_credentials (SSID c) (password c) x) (band p) (itwt_profile p).
Definition set_band (b : cy_wcm_wifi_band_t) (p : cy_wcm_connect_params_t) :=
  mk_connect_params (ap_credentials p) b (itwt_profile p).
Definition set_itwt_profile (x : cy_wcm_itwt_profile_t) (p : cy_wcm_connect_params_t) :=
  mk_connect_params (ap_credentials p) (band p) x.

(** [argv[i]]: reading past the supplied arguments is undefined. *)
Definition argv_read (argv : list string) (i : nat) : M string :=
  match nth_error argv i with
  | Some s => ret s
  | None => undefined
  end.

(** ** get_ip_string *)

Definition digit_char (d : Z) : ascii := ascii_of_nat (48 + Z.to_nat d).

(** The decimal digits of [n], most significant first, in front of [acc]. *)
Fixpoint ulong_digits (fuel : nat) (n : Z) (acc : string) : string :=
  match fuel with
  | O => acc
  | S fuel' =>
      let acc' := String (digit_char (n mod 10)) acc in
      if n / 10 =? 0 then acc' else ulong_digits fuel' (n / 10) acc'
  end.

(** The conversion [%lu]: an unsigned long has at most 20 decimal digits. *)
Definition fmt_lu (n : Z) : string := ulong_digits 20 n "".

(** The text produced by [sprintf] with format ["%lu.%lu.%lu.%lu"]. *)
Definition ip_text (ip : Z) : string :=
  (fmt_lu (Z.land ip 255) ++ "." ++
   fmt_lu (Z.land (Z.shiftr ip 8) 255) ++ "." ++
   fmt_lu (Z.land (Z.shiftr ip 16) 255) ++ "." ++
   fmt_lu (Z.land (Z.shiftr ip 24) 255))%string.

(** Number of bytes [sprintf] stores: the characters and the terminating NUL. *)
Definition sprintf_bytes (text : string) : Z := Z.of_nat (String.length text) + 1.

(** [capacity] is the size of the array [buffer] points to; storing more bytes
    than that is undefined. *)
Definition get_ip_string (capacity : Z) (ip : Z) : M string :=
  if sprintf_bytes (ip_text ip) <=? capacity then ret (ip_text ip) else undefined.

Arguments fmt_lu : simpl never.
Arguments ip_text : simpl never.
Arguments get_ip_string : simpl never.

(** ** ConnectWifi *)

Fixpoint ConnectWifi_loop (fuel : nat) (profile : cy_wcm_itwt_profile_t)
    (ssid key : string) (band : cy_wcm_wifi_band_t) (retry_count : Z) : M cy_rslt_t :=
  match fuel with
  | O => out_of_fuel
  | S fuel' =>
      modify_conn_params (set_SSID ssid) ;;;
      modify_conn_params (set_password key) ;;;
      modify_conn_params (set_security WIFI_SECURITY) ;;;
      modify_conn_params (set_band band) ;;;
      modify_conn_params (set_itwt_profile profile) ;;;
      r <- cy_wcm_connect_ap ;;
      let result := fst r in
      let ip_addr := snd r in
      cy_rtos_delay_milliseconds 500 ;;;
      if negb (result =? CY_RSLT_SUCCESS) then
        let retry_count := retry_count + 1 in
        if retry_count >=? MAX_WIFI_CONN_RETRIES then
          printf "Exceeded max WiFi connection attempts\n" [] ;;;
          ret CY_RSLT_ERROR
        else
          printf "Connection to WiFi network failed. Retrying...\n" [] ;;;
          ConnectWifi_loop fuel' profile ssid key band retry_count
      else
        printf "Successfully connected to Wi-Fi network '%s'.\n" [ArgS ssid] ;;;
        ipstr <- get_ip_string IP_STR_LEN ip_addr ;;
        printf "IP Address %s assigned\n" [ArgS ipstr] ;;;
        ret CY_RSLT_SUCCESS
  end.

(** [fuel] bounds the iterations of [while (1)]. *)
Definition ConnectWifi (fuel : nat) (profile : cy_wcm_itwt_profile_t) : M cy_rslt_t :=
  let ssid := WIFI_SSID in
  let key := WIFI_KEY in
  let band := WIFI_BAND in
  let retry_count := 0 in
  modify_conn_params (fun _ => conn_params_zero) ;;;
  printf "Connecting to Wi-Fi Network: %s\n" [ArgS WIFI_SSID] ;;;
  ConnectWifi_loop fuel profile ssid key band retry_count.

(** ** itwt_setup *)

(** [strcmp(a, b) == 0]. *)
Definition strcmp_eq (a b : string) : bool := String.eqb a b.

(** The handler returns [int]; [fuel] bounds the retry loop of [ConnectWifi].
    The first block yields [Some code] when the handler returns from inside
    it. *)
Definition itwt_setup (fuel : nat) (argc : Z) (argv : list string) : M Z :=
  if argc <? 1 then
    printf "Insufficient number of arguments. Command format: itwt_setup <profile>\n" [] ;;;
    ret (-1)
  else
    connected <- cy_wcm_is_connected_to_ap ;;
    early <- (if connected then
                printf "Already connected. Disconnecting from AP!!\n" [] ;;;
                result <- cy_wcm_disconnect_ap ;;
                if negb (result =? CY_RSLT_SUCCESS) then
                  printf ("Failed to disconnect from AP! Error code: 0x%08" ++ PRIx32 ++ "\n")%string
                         [ArgX32 result] ;;;
                  ret (Some (to_int result))
                else ret None
              else ret None) ;;
    match early with
    | Some code => ret code
    | None =>
        arg1 <- argv_read argv 1 ;;
        if strcmp_eq arg1 "idle" then
          result <- ConnectWifi fuel CY_WCM_ITWT_PROFILE_IDLE ;;
          ret (to_int result)
        else if strcmp_eq arg1 "active" then
          result <- ConnectWifi fuel CY_WCM_ITWT_PROFILE_ACTIVE ;;
          ret (to_int result)
        else
          printf "Invalid Profile\n" [] ;;;
          ret (-1)
    end.

(** ** itwt_teardown *)

Definition itwt_teardown (argc : Z) (argv : list string) : M Z :=
  let twt_params := mk_teardown_params TWT_CTRL_NEGO_TYPE_0 0 0 0 in
  result <- whd_wifi_twt_teardown CY_WCM_INTERFACE_TYPE_STA twt_params ;;
  (if negb (result =? CY_RSLT_SUCCESS) then
     printf ("TWT session teardown failed! Error code: 0x%08" ++ PRIx32 ++ "\n")%string [ArgX32 result]
   else ret tt) ;;;
  ret (to_int result).

(** ** The table of iTWT commands: name, handler, minimum argument count *)

Inductive handler := h_itwt_setup | h_itwt_teardown.

Record cy_command_console_cmd_t := mk_cmd {
  cmd_name : string;
  cmd_handler : handler;
  cmd_arg_count : Z;
  cmd_format : string;
  cmd_brief : string
}.

Definition itwt_commands_table : list cy_command_console_cmd_t :=
  [ mk_cmd "itwt_setup" h_itwt_setup 1 "<profile> <active|idle>"
           "Setup an iTWT session with parameters as per selected iTWT profile";
    mk_cmd "itwt_teardown" h_itwt_teardown 0 "" "Teardown ongoing iTWT session" ].

(** ** command_console_add_command *)

(** The configuration structure handed to the console library holds only
    compile-time constants and is not modelled; the calls and their results
    are. *)
Definition command_console_add_command : M cy_rslt_t :=
  result <- library_call "cy_command_console_init" ;;
  if negb (result =? CY_RSLT_SUCCESS) then
    printf ("Error in initializing command console library : 0x%08" ++ PRIx32 ++ "\n")%string
           [ArgX32 result] ;;;
    ret CY_RSLT_ERROR
  else
    result <- library_call "wifi_utility_init" ;;
    if negb (result =? CY_RSLT_SUCCESS) then
      printf ("Error in initializing command console library : 0x%08" ++ PRIx32 ++ "\n")%string
             [ArgX32 result] ;;;
      ret CY_RSLT_ERROR
    else
      library_call "iperf_utility_init" ;;;
      result <- library_call "cy_command_console_add_table" ;;
      if negb (result =? CY_RSLT_SUCCESS) then
        printf ("Error in adding command console table : 0x%08" ++ PRIx32 ++ "\n")%string
               [ArgX32 result] ;;;
        ret CY_RSLT_ERROR
      else ret CY_RSLT_SUCCESS.

(** ** wdt_handler and console_task *)

Definition wdt_handler (arg : Z) : M unit :=
  thread_ap_watchdog_ConfigureTime 5.

Definition run_callback (cb : timer_callback) (arg : Z) : M unit :=
  match cb with
  | cb_wdt_handler => wdt_handler arg
  end.

(** One expiry of [wdt_timer_t]: the RTOS runs the registered callback with
    the registered argument, if the timer has been started. *)
Definition timer_expiry : M unit :=
  fun w =>
    let t := wdt_timer_t w in
    match timer_cb t, timer_period t with
    | Some cb, Some _ => run_callback cb (timer_arg t) w
    | _, _ => (Done tt, w)
    end.

Fixpoint timer_expiries (n : nat) : M unit :=
  match n with
  | O => ret tt
  | S n' => timer_expiry ;;; timer_expiries n'
  end.

(** [while (1) cy_rtos_delay_milliseconds(500);] *)
Fixpoint idle_loop (fuel : nat) : M unit :=
  match fuel with
  | O => out_of_fuel
  | S fuel' => cy_rtos_delay_milliseconds 500 ;;; idle_loop fuel'
  end.

Definition console_task (fuel : nat) (arg : Z) : M unit :=
  result <- library_call "cy_wcm_init" ;;
  if negb (result =? CY_RSLT_SUCCESS) then
    printf ("Wi-Fi Connection Manager initialization failed! Error code: 0x%08" ++ PRIx32 ++ "\n")%string
           [ArgX32 result] ;;;
    ret tt
  else
    printf "Wi-Fi Connection Manager initialized.\n" [] ;;;
    ConnectWifi fuel CY_WCM_ITWT_PROFILE_NONE ;;;
    command_console_add_command ;;;
    cy_rtos_init_timer CY_TIMER_TYPE_PERIODIC cb_wdt_handler 0 ;;;
    cy_rtos_start_timer WDT_TIMEOUT_MS ;;;
    thread_ap_watchdog_ConfigureTime 5 ;;;
    idle_loop fuel.

(** ** Concrete worlds used in the examples *)

Definition never_associates : nat -> cy_rslt_t * Z := fun _ => (33554435, 0).
Definition associates_at (k : nat) (ip : Z) : nat -> cy_rslt_t * Z :=
  fun n => if Nat.eqb n k then (0, ip) else (33554435, 0).

Definition world0 (connected : bool) (disc : cy_rslt_t) (assoc : nat -> cy_rslt_t * Z)
    (td : cy_rslt_t) : world :=
  mk_world conn_params_zero timer_uninit connected disc assoc td (fun _ => 0) [].

Definition events_of {A} (m : M A) (w : world) : list event := trace (snd (m w)).
Definition result_of {A} (m : M A) (w : world) : result A := fst (m w).

(** ** Reading a dotted quad back

    An independent recogniser of the pattern [d.d.d.d]: the text is cut at
    the dots and every field is read as a decimal number. *)

Definition is_dot (c : ascii) : bool := Ascii.eqb c ".".

Definition is_digit (c : ascii) : bool :=
  (48 <=? nat_of_ascii c)%nat && (nat_of_ascii c <=? 57)%nat.

Fixpoint no_dot (s : string) : bool :=
  match s with
  | EmptyString => true
  | String c r => negb (is_dot c) && no_dot r
  end.

Fixpoint split_on_dot (s : string) : list string :=
  match s with
  | EmptyString => [EmptyString]
  | String c r =>
      if is_dot c then EmptyString :: split_on_dot r
      else match split_on_dot r with
           | [] => [String c EmptyString]
           | h :: t => String c h :: t
           end
  end.

Fixpoint decimal_value_from (acc : Z) (s : string) : option Z :=
  match s with
  | EmptyString => Some acc
  | String c r =>
      if is_digit c
      then decimal_value_from (10 * acc + Z.of_nat (nat_of_ascii c - 48)) r
      else None
  end.

(** The value of a non-empty string of decimal digits. *)
Definition decimal_value (s : string) : option Z :=
  match s with
  | EmptyString => None
  | _ => decimal_value_from 0 s
  end.

Definition is_octet (s : string) : option Z :=
  match decimal_value s with
  | Some v => if (v <=? 255) && (Nat.leb (String.length s) 3) then Some v else None
  | None => None
  end.

(** [parse_dotted_quad s] is the four fields of [s] when [s] has the form
    [d.d.d.d] with every [d] a decimal number of at most three digits and of
    value at most 255. *)
Definition parse_dotted_quad (s : string) : option (Z * Z * Z * Z) :=
  match map is_octet (split_on_dot s) with
  | [Some a; Some b; Some c; Some d] => Some (a, b, c, d)
  | _ => None
  end.

(** The four 8-bit fields [get_ip_string] extracts, in printing order. *)
Definition ip_fields (ip : Z) : Z * Z * Z * Z :=
  (Z.land ip 255, Z.land (Z.shiftr ip 8) 255,
   Z.land (Z.shiftr ip 16) 255, Z.land (Z.shiftr ip 24) 255).

(** The 256 values of an 8-bit field, and the check run on each of them. *)
Definition octets : list Z := map Z.of_nat (seq 0 256).

Definition octet_text_ok (b : Z) : bool :=
  no_dot (fmt_lu b)
  && match is_octet (fmt_lu b) with Some v => v =? b | None => false end
  && Nat.leb 1 (String.length (fmt_lu b))
  && Nat.leb (String.length (fmt_lu b)) 3.

(** ** The events of a run of [ConnectWifi] *)

Definition params_for (profile : cy_wcm_itwt_profile_t) : cy_wcm_connect_params_t :=
  mk_connect_params (mk_credentials WIFI_SSID WIFI_KEY WIFI_SECURITY) WIFI_BAND profile.

Definition attempt_events (profile : cy_wcm_itwt_profile_t) (o : cy_rslt_t * Z) : list event :=
  [Call_connect_ap (params_for profile) (fst o) (snd o); Call_delay_milliseconds 500].

Definition retry_block (profile : cy_wcm_itwt_profile_t) (o : cy_rslt_t * Z) : list event :=
  attempt_events profile o ++
  [Call_printf "Connection to WiFi network failed. Retrying...\n" []].

Definition exhausted_block (profile : cy_wcm_itwt_profile_t) (o : cy_rslt_t * Z) : list event :=
  attempt_events profile o ++ [Call_printf "Exceeded max WiFi connection attempts\n" []].

Definition success_block (profile : cy_wcm_itwt_profile_t) (o : cy_rslt_t * Z) : list event :=
  attempt_events profile o ++
  [Call_printf "Successfully connected to Wi-Fi network '%s'.\n" [ArgS WIFI_SSID];
   Call_printf "IP Address %s assigned\n" [ArgS (ip_text (snd o))]].

Definition final_block (profile : cy_wcm_itwt_profile_t) (ok : bool) (o : cy_rslt_t * Z) :=
  if ok then success_block profile o else exhausted_block profile o.

Definition loop_events (profile : cy_wcm_itwt_profile_t) (f : nat -> cy_rslt_t * Z)
    (k : nat) (ok : bool) : list event :=
  flat_map (retry_block profile) (map f (seq 0 k)) ++ final_block profile ok (f k).

Definition loop_world (profile : cy_wcm_itwt_profile_t) (k : nat) (ok : bool) (w : world) : world :=
  mk_world (params_for profile) (wdt_timer_t w)
           (if ok then true else ap_connected w) (disconnect_outcome w)
           (fun n => associate_outcomes w (S k + n)%nat)
           (teardown_outcome w) (library_outcome w)
           (trace w ++ loop_events profile (associate_outcomes w) k ok).

Definition loop_result (ok : bool) : cy_rslt_t := if ok then CY_RSLT_SUCCESS else CY_RSLT_ERROR.



Definition ConnectWifi_events (profile : cy_wcm_itwt_profile_t) (f : nat -> cy_rslt_t * Z)
    (k : nat) (ok : bool) : list event :=
  Call_printf "Connecting to Wi-Fi Network: %s\n" [ArgS WIFI_SSID]
  :: loop_events profile f k ok.

Definition ConnectWifi_world (profile : cy_wcm_itwt_profile_t) (k : nat) (ok : bool)
    (w : world) : world :=
  mk_world (params_for profile) (wdt_timer_t w)
           (if ok then true else ap_connected w) (disconnect_outcome w)
           (fun n => associate_outcomes w (S k + n)%nat)
           (teardown_outcome w) (library_outcome w)
           (trace w ++ ConnectWifi_events profile (associate_outcomes w) k ok).

(** The shape of a run against the outcomes [f]: [k] failed attempts that are
    retried, then one last attempt that succeeds ([ok]) or is the failure
    number [MAX_WIFI_CONN_RETRIES]. *)
Definition run_shape (f : nat -> cy_rslt_t * Z) (k : nat) (ok : bool) : Prop :=
  (k < 15)%nat /\
  (forall i, (i < k)%nat -> fst (f i) <> CY_RSLT_SUCCESS) /\
  (if ok then fst (f k) = CY_RSLT_SUCCESS
   else k = 14%nat /\ fst (f k) <> CY_RSLT_SUCCESS).

(** ** Observations on traces *)

Definition is_connect (e : event) : bool :=
  match e with Call_connect_ap _ _ _ => true | _ => false end.
Definition is_delay (e : event) : bool :=
  match e with Call_delay_milliseconds _ => true | _ => false end.
Definition is_disconnect (e : event) : bool :=
  match e with Call_disconnect_ap _ => true | _ => false end.

Definition count (p : event -> bool) (evs : list event) : nat := List.length (filter p evs).

(** Every associate call is directly followed by the 500 ms delay. *)
Definition each_connect_followed_by_delay (evs : list event) : Prop :=
  forall (pre : list event) p r ip post,
    evs = (pre ++ Call_connect_ap p r ip :: post)%list ->
    exists post', post = Call_delay_milliseconds 500 :: post'.

(** Every delay lasts 500 ms and directly follows an associate call. *)
Definition each_delay_follows_connect (evs : list event) : Prop :=
  forall (pre : list event) ms post,
    evs = (pre ++ Call_delay_milliseconds ms :: post)%list ->
    ms = 500 /\ exists pre' p r ip, pre = (pre' ++ [Call_connect_ap p r ip])%list.

(** Every delay has an associate call somewhere before it and another one
    somewhere after it. *)
Definition delay_only_between_attempts (evs : list event) : Prop :=
  forall (pre : list event) ms post,
    evs = (pre ++ Call_delay_milliseconds ms :: post)%list ->
    existsb is_connect pre = true /\ existsb is_connect post = true.

Fixpoint connects_then_delay (evs : list event) : bool :=
  match evs with
  | [] => true
  | e :: rest =>
      (if is_connect e
       then match rest with
            | Call_delay_milliseconds 500 :: _ => true
            | _ => false
            end
       else true) && connects_then_delay rest
  end.

Fixpoint delays_after_connect (prev : bool) (evs : list event) : bool :=
  match evs with
  | [] => true
  | e :: rest =>
      (match e with
       | Call_delay_milliseconds ms => prev && (ms =? 500)
       | _ => true
       end) && delays_after_connect (is_connect e) rest
  end.

(** ** The two blocks of [itwt_setup] *)

(** What follows the disconnection block: the choice of the profile from
    [argv[1]]. *)
Definition setup_profile_block (fuel : nat) (argv : list string) : M Z :=
  arg1 <- argv_read argv 1 ;;
  if strcmp_eq arg1 "idle" then
    result <- ConnectWifi fuel CY_WCM_ITWT_PROFILE_IDLE ;;
    ret (to_int result)
  else if strcmp_eq arg1 "active" then
    result <- ConnectWifi fuel CY_WCM_ITWT_PROFILE_ACTIVE ;;
    ret (to_int result)
  else
    printf "Invalid Profile\n" [] ;;;
    ret (-1).

(** The world and the events after the station was found connected and was
    disconnected with code [disconnect_outcome w]. *)
Definition disconnect_events (w : world) : list event :=
  [Call_is_connected_to_ap true;
   Call_printf "Already connected. Disconnecting from AP!!\n" [];
   Call_disconnect_ap (disconnect_outcome w)].

Definition after_disconnect (w : world) : world :=
  mk_world (conn_params w) (wdt_timer_t w)
           (if disconnect_outcome w =? CY_RSLT_SUCCESS then false else ap_connected w)
           (disconnect_outcome w) (associate_outcomes w) (teardown_outcome w)
           (library_outcome w) (trace w ++ disconnect_events w).

(** The token of a profile the handler accepts. *)
Definition profile_of_token (s : string) : option cy_wcm_itwt_profile_t :=
  if strcmp_eq s "idle" then Some CY_WCM_ITWT_PROFILE_IDLE
  else if strcmp_eq s "active" then Some CY_WCM_ITWT_PROFILE_ACTIVE
  else None.

(** ** Frames *)

(** [w'] differs from [w] in its trace only: the globals of [main.c] and the
    state of the environment are the same. *)
Definition unchanged_but_trace (w w' : world) : Prop :=
  conn_params w' = conn_params w /\
  wdt_timer_t w' = wdt_timer_t w /\
  ap_connected w' = ap_connected w /\
  disconnect_outcome w' = disconnect_outcome w /\
  associate_outcomes w' = associate_outcomes w /\
  teardown_outcome w' = teardown_outcome w /\
  library_outcome w' = library_outcome w.

(** The timer as [console_task] arms it. *)
Definition wdt_timer_armed : cy_timer_t :=
  mk_timer (Some CY_TIMER_TYPE_PERIODIC) (Some cb_wdt_handler) 0 (Some WDT_TIMEOUT_MS).

(** The declared minimum argument count of a command of the table. *)
Definition declared_min_args (name : string) : option Z :=
  match filter (fun c => String.eqb (cmd_name c) name) itwt_commands_table with
  | c :: _ => Some (cmd_arg_count c)
  | [] => None
  end.

(** ** The dispatch of a command *)

Definition find_command (name : string) : option cy_command_console_cmd_t :=
  find (fun c => String.eqb (cmd_name c) name) itwt_commands_table.

Definition run_handler (h : handler) (fuel : nat) (argc : Z) (argv : list string) : M Z :=
  match h with
  | h_itwt_setup => itwt_setup fuel argc argv
  | h_itwt_teardown => itwt_teardown argc argv
  end.

(** Modelled from the spec: the dispatcher of the command console library is
    not part of the sources.  Per the spec it rejects a line with a usage
    error, before invoking any handler, if the supplied argument count is
    below the declared minimum of the command, and otherwise runs the handler
    of the command; the usage error is the status -1 the spec gives for
    insufficient arguments.  [argv] holds the tokens of the line, the command
    name first, as the handlers read them, so that the supplied argument
    count is one less than the number of tokens. *)
Definition dispatch (cmd : cy_command_console_cmd_t) (fuel : nat) (argv : list string) : M Z :=
  let argc := Z.of_nat (List.length argv) in
  if argc - 1 <? cmd_arg_count cmd then ret (-1)
  else run_handler (cmd_handler cmd) fuel argc argv.

(** ** set_cpu_clock_cp and main *)

(** The preprocessor symbols that select the conditional parts of [main]. *)
Record build_config := mk_build_config {
  H1CP_CLOCK_FREQ : option Z;     (* the macro, when it is defined *)
  CYHAL_API_VERSION : Z;
  COMPONENT_CAT5 : bool
}.

(** [CY_HALT] stops the program for ever: it makes no call and never returns. *)
Fixpoint CY_HALT (fuel : nat) : M unit :=
  match fuel with
  | O => out_of_fuel
  | S fuel' => CY_HALT fuel'
  end.

(** Modelled from the spec: the macro [CY_ASSERT] is declared in the headers
    of the device library, which are not part of the sources; per the spec an
    initialization failure at startup halts execution, as the comments of
    [main] say ("Stop program execution"). *)
Definition CY_ASSERT (fuel : nat) (cond : bool) : M unit :=
  if cond then ret tt else CY_HALT fuel.

(** The calls into the HAL are recorded by name with the code they return;
    the clock object and the frequency handed to them are not recorded. *)
Definition set_cpu_clock_cp (freq : Z) : M cy_rslt_t :=
  rslt <- library_call "cyhal_clock_get" ;;
  if CY_RSLT_SUCCESS =? rslt then
    rslt <- library_call "cyhal_clock_set_frequency" ;;
    ret rslt
  else ret rslt.

Definition main_banner : string :=
  "************************************************************\n                      TWT Demo Example                      \n************************************************************\n".

(** [cy_rtos_thread_create] registers [console_task] with the scheduler; the
    run of the task itself is [console_task]. *)
Definition main (cfg : build_config) (fuel : nat) : M Z :=
  result <- library_call "cybsp_init" ;;
  (if negb (result =? CY_RSLT_SUCCESS) then CY_ASSERT fuel false else ret tt) ;;;
  library_call "__enable_irq" ;;;
  (if COMPONENT_CAT5 cfg then library_call "cyhal_syspm_lock_deepsleep" ;;; ret tt
   else ret tt) ;;;
  result <- (match H1CP_CLOCK_FREQ cfg with
             | Some freq =>
                 if CYHAL_API_VERSION cfg >=? 2 then
                   result <- set_cpu_clock_cp freq ;;
                   CY_ASSERT fuel (result =? CY_RSLT_SUCCESS) ;;;
                   ret result
                 else ret result
             | None => ret result
             end) ;;
  library_call "cy_retarget_io_init" ;;;
  (if negb (result =? CY_RSLT_SUCCESS) then CY_ASSERT fuel false else ret tt) ;;;
  printf "\x1b[2J\x1b[;H" [] ;;;
  printf main_banner [] ;;;
  result <- library_call "cy_rtos_thread_create" ;;
  (if negb (result =? CY_RSLT_SUCCESS) then CY_ASSERT fuel false else ret tt) ;;;
  ret 0.

(** ** Further observations on traces *)

Definition is_printf (e : event) : bool :=
  match e with Call_printf _ _ => true | _ => false end.
Definition is_watchdog (e : event) : bool :=
  match e with Call_watchdog_ConfigureTime _ => true | _ => false end.
Definition is_teardown (e : event) : bool :=
  match e with Call_twt_teardown _ _ _ => true | _ => false end.
Definition is_library (name : string) (e : event) : bool :=
  match e with Call_library n _ => String.eqb n name | _ => false end.

(** The parameters handed to the associate calls of a trace, in order. *)
Fixpoint connect_params_of (evs : list event) : list cy_wcm_connect_params_t :=
  match evs with
  | [] => []
  | Call_connect_ap p _ _ :: rest => p :: connect_params_of rest
  | _ :: rest => connect_params_of rest
  end.

(** The time spent in [cy_rtos_delay_milliseconds], in ms. *)
Fixpoint delay_total (evs : list event) : Z :=
  match evs with
  | [] => 0
  | Call_delay_milliseconds ms :: rest => ms + delay_total rest
  | _ :: rest => delay_total rest
  end.

(** The formats of the messages of [ConnectWifi]. *)
Definition retry_message : string := "Connection to WiFi network failed. Retrying...\n".
Definition exhausted_message : string := "Exceeded max WiFi connection attempts\n".

Definition is_message (fmt : string) (e : event) : bool :=
  match e with Call_printf f _ => String.eqb f fmt | _ => false end.

(** The address whose four 8-bit fields are [a], [b], [c], [d], the first
    printed field being the least significant. *)
Definition ip_of_fields (q : Z * Z * Z * Z) : Z :=
  let '(a, b, c, d) := q in a + 256 * b + 65536 * c + 16777216 * d.

(** The number of decimal digits of an 8-bit field. *)
Definition octet_digits (v : Z) : nat :=
  if v <? 10 then 1%nat else if v <? 100 then 2%nat else 3%nat.

Definition leading_zero (s : string) : bool :=
  match s with
  | String c (String _ _) => Ascii.eqb c "0"
  | _ => false
  end.

Definition octet_canonical (v : Z) : bool :=
  Nat.eqb (String.length (fmt_lu v)) (octet_digits v) && negb (leading_zero (fmt_lu v)).

(** ** Proof automation *)

(** One iteration of the retry loop, up to the test of the result. *)
Ltac loop_step :=
  cbn [ConnectWifi_loop]; unfold bind at 1 2 3 4 5 6 7; cbn.

(** Worlds are compared field by field once the world they start from is
    a constructor, so that each setter is evaluated on a value. *)
Ltac eval_world :=
  cbv [emit set_ap_connected set_associate_outcomes set_conn_params set_wdt_timer
       conn_params wdt_timer_t ap_connected disconnect_outcome associate_outcomes
       teardown_outcome library_outcome trace].

Ltac world_eq w :=
  destruct w; eval_world;
  unfold retry_block, exhausted_block, success_block, attempt_events;
  rewrite <- ?app_assoc; reflexivity.

(** The calls of the first block of [itwt_setup], evaluated on a world that
    is a constructor. *)
Ltac eval_monad :=
  cbv [bind ret printf cy_wcm_is_connected_to_ap cy_wcm_disconnect_ap
       emit set_ap_connected set_associate_outcomes set_conn_params set_wdt_timer
       conn_params wdt_timer_t ap_connected disconnect_outcome associate_outcomes
       teardown_outcome library_outcome trace].

(** The guard [argc < 1] when there is at least one argument. *)
Ltac pass_guard argc :=
  let E := fresh "E" in
  unfold itwt_setup; destruct (argc <? 1) eqn:E; [apply Z.ltb_lt in E; lia|].

(** The calls and the messages of [command_console_add_command], given the
    codes the libraries return: each initialization is attempted only when
    the ones before it succeeded, and a failure is followed by its message. *)
Definition registration_events (lo : string -> cy_rslt_t) : list event :=
  Call_library "cy_command_console_init" (lo "cy_command_console_init")
  :: if negb (lo "cy_command_console_init" =? CY_RSLT_SUCCESS) then
       [Call_printf ("Error in initializing command console library : 0x%08"
                     ++ PRIx32 ++ "\n")%string
                    [ArgX32 (lo "cy_command_console_init")]]
     else
       Call_library "wifi_utility_init" (lo "wifi_utility_init")
       :: if negb (lo "wifi_utility_init" =? CY_RSLT_SUCCESS) then
            [Call_printf ("Error in initializing command console library : 0x%08"
                          ++ PRIx32 ++ "\n")%string
                         [ArgX32 (lo "wifi_utility_init")]]
          else
            Call_library "iperf_utility_init" (lo "iperf_utility_init")
            :: Call_library "cy_command_console_add_table"
                            (lo "cy_command_console_add_table")
            :: if negb (lo "cy_command_console_add_table" =? CY_RSLT_SUCCESS) then
                 [Call_printf ("Error in adding command console table : 0x%08"
                               ++ PRIx32 ++ "\n")%string
                              [ArgX32 (lo "cy_command_console_add_table")]]
               else [].

(** The calls to the libraries, evaluated on a world that is a constructor. *)
Ltac eval_library :=
  cbv [bind ret printf library_call emit conn_params wdt_timer_t ap_connected
       disconnect_outcome associate_outcomes teardown_outcome library_outcome trace].

(** * Properties *)

(** ** Integer conversions *)

Lemma to_uint32_to_int (r : cy_rslt_t) : cy_rslt_wf r -> to_uint32 (to_int r) = r.
Proof.
  unfold cy_rslt_wf, to_uint32, to_int. intros H.
  rewrite (Z.mod_small r) by lia.
  destruct (r <? 2 ^ 31) eqn:E.
  - apply Z.mod_small; lia.
  - replace (r - 2 ^ 32) with (r + (-1) * 2 ^ 32) by lia.
    rewrite Z.mod_add by lia. apply Z.mod_small; lia.
Qed.

Lemma to_int_zero_iff (r : cy_rslt_t) : cy_rslt_wf r -> (to_int r = 0 <-> r = 0).
Proof.
  unfold cy_rslt_wf, to_int. intros H.
  rewrite (Z.mod_small r) by lia.
  destruct (r <? 2 ^ 31) eqn:E; [lia|].
  apply Z.ltb_ge in E. lia.
Qed.

Lemma to_int_CY_RSLT_ERROR : to_int CY_RSLT_ERROR = -1.
Proof. reflexivity. Qed.

Lemma CY_RSLT_ERROR_not_success : CY_RSLT_ERROR <> CY_RSLT_SUCCESS.
Proof. discriminate. Qed.

(** ** get_ip_string *)

Lemma string_length_append (a b : string) :
  String.length (a ++ b) = (String.length a + String.length b)%nat.
Proof. induction a as [|c a IH]; simpl; [reflexivity | now rewrite IH]. Qed.

Lemma octets_complete (b : Z) : 0 <= b < 256 -> In b octets.
Proof.
  intros H. unfold octets. apply in_map_iff.
  exists (Z.to_nat b). split; [lia|]. apply in_seq. lia.
Qed.

(** A boolean property checked on the 256 octets holds of each of them. *)
Lemma octets_forall (P : Z -> bool) :
  forallb P octets = true -> forall b, 0 <= b < 256 -> P b = true.
Proof.
  intros H b Hb. rewrite forallb_forall in H. apply H, octets_complete, Hb.
Qed.

Lemma land_255_range (x : Z) : 0 <= Z.land x 255 < 256.
Proof.
  change 255 with (Z.ones 8). rewrite Z.land_ones by lia.
  apply Z.mod_pos_bound. reflexivity.
Qed.

Lemma octet_text_ok_all : forallb octet_text_ok octets = true.
Proof. vm_compute. reflexivity. Qed.

Lemma fmt_lu_octet (b : Z) :
  0 <= b < 256 ->
  no_dot (fmt_lu b) = true /\ is_octet (fmt_lu b) = Some b /\
  (1 <= String.length (fmt_lu b) <= 3)%nat.
Proof.
  intros Hb. pose proof (octets_forall _ octet_text_ok_all b Hb) as H.
  unfold octet_text_ok in H.
  repeat (apply andb_true_iff in H; destruct H as [H ?]).
  destruct (is_octet (fmt_lu b)) as [v|]; [|discriminate].
  match goal with E : (v =? b) = true |- _ => apply Z.eqb_eq in E; subst v end.
  repeat match goal with E : Nat.leb _ _ = true |- _ => apply Nat.leb_le in E end.
  repeat split; auto.
Qed.

Lemma split_on_dot_no_dot (a : string) : no_dot a = true -> split_on_dot a = [a].
Proof.
  induction a as [|c a IH]; simpl; [reflexivity|].
  intros H. apply andb_true_iff in H. destruct H as [Hc Ha].
  apply negb_true_iff in Hc. rewrite Hc, (IH Ha). reflexivity.
Qed.

Lemma split_on_dot_field (a r : string) :
  no_dot a = true -> split_on_dot (a ++ String "." r) = a :: split_on_dot r.
Proof.
  induction a as [|c a IH]; simpl; [reflexivity|].
  intros H. apply andb_true_iff in H. destruct H as [Hc Ha].
  apply negb_true_iff in Hc. rewrite Hc, (IH Ha). reflexivity.
Qed.

Lemma ip_text_unfold (ip : Z) :
  ip_text ip =
  (fmt_lu (Z.land ip 255) ++ String "."
    (fmt_lu (Z.land (Z.shiftr ip 8) 255) ++ String "."
      (fmt_lu (Z.land (Z.shiftr ip 16) 255) ++ String "."
        (fmt_lu (Z.land (Z.shiftr ip 24) 255)))))%string.
Proof. reflexivity. Qed.

Lemma parse_ip_text (ip : Z) : parse_dotted_quad (ip_text ip) = Some (ip_fields ip).
Proof.
  destruct (fmt_lu_octet _ (land_255_range ip)) as (N0 & V0 & _).
  destruct (fmt_lu_octet _ (land_255_range (Z.shiftr ip 8))) as (N1 & V1 & _).
  destruct (fmt_lu_octet _ (land_255_range (Z.shiftr ip 16))) as (N2 & V2 & _).
  destruct (fmt_lu_octet _ (land_255_range (Z.shiftr ip 24))) as (N3 & V3 & _).
  unfold parse_dotted_quad, ip_fields. rewrite ip_text_unfold.
  rewrite 3 split_on_dot_field by assumption.
  rewrite split_on_dot_no_dot by assumption.
  cbn [map]. rewrite V0, V1, V2, V3. reflexivity.
Qed.

Lemma ip_text_length (ip : Z) : (7 <= String.length (ip_text ip) <= 15)%nat.
Proof.
  destruct (fmt_lu_octet _ (land_255_range ip)) as (_ & _ & L0).
  destruct (fmt_lu_octet _ (land_255_range (Z.shiftr ip 8))) as (_ & _ & L1).
  destruct (fmt_lu_octet _ (land_255_range (Z.shiftr ip 16))) as (_ & _ & L2).
  destruct (fmt_lu_octet _ (land_255_range (Z.shiftr ip 24))) as (_ & _ & L3).
  rewrite ip_text_unfold. repeat (rewrite string_length_append; cbn [String.length]). lia.
Qed.

Lemma get_ip_string_fits (ip : Z) (w : world) :
  get_ip_string IP_STR_LEN ip w = (Done (ip_text ip), w).
Proof.
  unfold get_ip_string, sprintf_bytes, IP_STR_LEN.
  pose proof (ip_text_length ip) as L.
  destruct (Z.of_nat (String.length (ip_text ip)) + 1 <=? 16) eqn:E; [reflexivity|].
  apply Z.leb_gt in E. lia.
Qed.

Example ip_text_example : ip_text 16885952 = "192.168.1.1".
Proof. reflexivity. Qed.

Example ip_text_widest : ip_text 4294967295 = "255.255.255.255".
Proof. reflexivity. Qed.

(** ** ConnectWifi: the retry loop *)

Lemma loop_step_retry fuel profile rc w :
  fst (associate_outcomes w 0%nat) <> 0 -> rc + 1 < 15 ->
  ConnectWifi_loop (S fuel) profile WIFI_SSID WIFI_KEY WIFI_BAND rc w =
  ConnectWifi_loop fuel profile WIFI_SSID WIFI_KEY WIFI_BAND (rc + 1)
    (mk_world (params_for profile) (wdt_timer_t w) (ap_connected w) (disconnect_outcome w)
              (fun n => associate_outcomes w (S n)) (teardown_outcome w) (library_outcome w)
              (trace w ++ retry_block profile (associate_outcomes w 0%nat))).
Proof.
  intros Hf Hrc. loop_step.
  apply Z.eqb_neq in Hf. unfold CY_RSLT_SUCCESS. rewrite Hf. cbn.
  unfold MAX_WIFI_CONN_RETRIES.
  destruct (rc + 1 >=? 15) eqn:E; [rewrite Z.geb_le in E; lia|].
  unfold bind, printf. f_equal. world_eq w.
Qed.

Lemma loop_step_exhausted fuel profile rc w :
  fst (associate_outcomes w 0%nat) <> 0 -> 15 <= rc + 1 ->
  ConnectWifi_loop (S fuel) profile WIFI_SSID WIFI_KEY WIFI_BAND rc w =
  (Done CY_RSLT_ERROR,
   mk_world (params_for profile) (wdt_timer_t w) (ap_connected w) (disconnect_outcome w)
            (fun n => associate_outcomes w (S n)) (teardown_outcome w) (library_outcome w)
            (trace w ++ exhausted_block profile (associate_outcomes w 0%nat))).
Proof.
  intros Hf Hrc. loop_step.
  apply Z.eqb_neq in Hf. unfold CY_RSLT_SUCCESS. rewrite Hf. cbn.
  unfold MAX_WIFI_CONN_RETRIES.
  destruct (rc + 1 >=? 15) eqn:E; [|rewrite Z.geb_leb in E; apply Z.leb_gt in E; lia].
  unfold bind, printf, ret. f_equal. world_eq w.
Qed.

Lemma loop_step_success fuel profile rc w :
  fst (associate_outcomes w 0%nat) = 0 ->
  ConnectWifi_loop (S fuel) profile WIFI_SSID WIFI_KEY WIFI_BAND rc w =
  (Done CY_RSLT_SUCCESS,
   mk_world (params_for profile) (wdt_timer_t w) true (disconnect_outcome w)
            (fun n => associate_outcomes w (S n)) (teardown_outcome w) (library_outcome w)
            (trace w ++ success_block profile (associate_outcomes w 0%nat))).
Proof.
  intros Hf. loop_step.
  unfold CY_RSLT_SUCCESS. rewrite Hf. cbn [Z.eqb negb].
  unfold bind at 1. unfold printf at 1. unfold bind at 1.
  rewrite get_ip_string_fits. unfold bind, printf, ret. f_equal. world_eq w.
Qed.

Lemma map_seq_shift {A} (f : nat -> A) (k : nat) :
  map f (seq 1 k) = map (fun n => f (S n)) (seq 0 k).
Proof. rewrite <- seq_shift, map_map. reflexivity. Qed.

Lemma loop_events_S profile f k ok :
  loop_events profile f (S k) ok =
  retry_block profile (f 0%nat) ++ loop_events profile (fun n => f (S n)) k ok.
Proof.
  unfold loop_events. cbn [seq map flat_map].
  rewrite map_seq_shift, <- app_assoc. reflexivity.
Qed.

Lemma loop_run profile : forall k fuel rc w ok,
  (k < fuel)%nat ->
  (forall i, (i < k)%nat -> fst (associate_outcomes w i) <> 0) ->
  rc + Z.of_nat k < 15 ->
  (if ok : bool then fst (associate_outcomes w k) = 0
   else fst (associate_outcomes w k) <> 0 /\ rc + Z.of_nat k = 14) ->
  ConnectWifi_loop fuel profile WIFI_SSID WIFI_KEY WIFI_BAND rc w =
  (Done (loop_result ok), loop_world profile k ok w).
Proof.
  induction k as [|k IH]; intros fuel rc w ok Hfuel Hfail Hrc Hlast;
    (destruct fuel as [|fuel]; [lia|]).
  - destruct ok.
    + rewrite loop_step_success by assumption. reflexivity.
    + destruct Hlast as [Hf He].
      rewrite loop_step_exhausted by (assumption || lia). reflexivity.
  - rewrite loop_step_retry by (try apply Hfail; lia).
    rewrite (IH fuel (rc + 1) _ ok); cbn [associate_outcomes].
    + unfold loop_world. cbn [trace wdt_timer_t ap_connected disconnect_outcome
                                associate_outcomes teardown_outcome library_outcome].
      rewrite loop_events_S, <- app_assoc. reflexivity.
    + lia.
    + intros i Hi. apply Hfail. lia.
    + lia.
    + destruct ok; [assumption|]. destruct Hlast; split; [assumption|lia].
Qed.

(** Among the first [n] outcomes either all fail or there is a first success. *)
Lemma first_success (f : nat -> cy_rslt_t * Z) (n : nat) :
  (forall i, (i < n)%nat -> fst (f i) <> 0) \/
  (exists k, (k < n)%nat /\ (forall i, (i < k)%nat -> fst (f i) <> 0) /\ fst (f k) = 0).
Proof.
  induction n as [|n [IH|IH]].
  - left. intros i Hi. lia.
  - destruct (Z.eq_dec (fst (f n)) 0) as [E|E].
    + right. exists n. split; [lia|]. split; [intros; apply IH; assumption | exact E].
    + left. intros i Hi. destruct (Nat.eq_dec i n); [subst; exact E | apply IH; lia].
  - right. destruct IH as (k & Hk & Hf & E). exists k. split; [lia|]. split; assumption.
Qed.

Lemma ConnectWifi_run fuel profile w k ok :
  (15 <= fuel)%nat -> run_shape (associate_outcomes w) k ok ->
  ConnectWifi fuel profile w = (Done (loop_result ok), ConnectWifi_world profile k ok w).
Proof.
  intros Hfuel (Hk & Hfail & Hlast).
  unfold ConnectWifi, bind, modify_conn_params, printf.
  rewrite (loop_run profile k fuel 0 _ ok); cbn [associate_outcomes emit set_conn_params].
  - unfold loop_world, ConnectWifi_world, ConnectWifi_events, emit, set_conn_params.
    cbn [trace wdt_timer_t ap_connected disconnect_outcome
               associate_outcomes teardown_outcome library_outcome].
    rewrite <- app_assoc. reflexivity.
  - lia.
  - exact Hfail.
  - lia.
  - destruct ok; [exact Hlast|]. destruct Hlast as [-> Hf]. split; [exact Hf|reflexivity].
Qed.

Lemma run_shape_exists (f : nat -> cy_rslt_t * Z) : exists k ok, run_shape f k ok.
Proof.
  destruct (first_success f 15) as [Hall | (k & Hk & Hfail & Hok)].
  - exists 14%nat, false. repeat split; try lia.
    + intros i Hi. apply Hall. lia.
    + apply Hall. lia.
  - exists k, true. repeat split; assumption.
Qed.

Lemma run_shape_unique f k ok k' ok' :
  run_shape f k ok -> run_shape f k' ok' -> k = k' /\ ok = ok'.
Proof.
  unfold CY_RSLT_SUCCESS.
  intros (Hk & Hf & Hl) (Hk' & Hf' & Hl').
  destruct ok, ok'.
  - split; [|reflexivity].
    destruct (Nat.lt_trichotomy k k') as [L | [E | L]]; [|exact E|].
    + exfalso. exact (Hf' k L Hl).
    + exfalso. exact (Hf k' L Hl').
  - exfalso. destruct Hl' as [-> Hl'].
    destruct (Nat.eq_dec k 14) as [->|N]; [exact (Hl' Hl)|].
    apply (Hf' k); [lia | exact Hl].
  - exfalso. destruct Hl as [-> Hl].
    destruct (Nat.eq_dec k' 14) as [->|N]; [exact (Hl Hl')|].
    apply (Hf k'); [lia | exact Hl'].
  - destruct Hl as [-> _], Hl' as [-> _]. split; reflexivity.
Qed.

Lemma run_shape_all_fail f :
  (forall i, (i < 15)%nat -> fst (f i) <> CY_RSLT_SUCCESS) -> run_shape f 14 false.
Proof. intros H. repeat split; try lia; intros; apply H; lia. Qed.

Lemma run_shape_success f k :
  (k < 15)%nat -> (forall i, (i < k)%nat -> fst (f i) <> CY_RSLT_SUCCESS) ->
  fst (f k) = CY_RSLT_SUCCESS -> run_shape f k true.
Proof. intros. repeat split; assumption. Qed.

(** *** Counting the calls of a run *)

Lemma count_app p (a b : list event) : count p (a ++ b)%list = (count p a + count p b)%nat.
Proof. unfold count. rewrite filter_app, length_app. reflexivity. Qed.

Lemma count_retry_blocks profile (l : list (cy_rslt_t * Z)) :
  count is_connect (flat_map (retry_block profile) l) = List.length l /\
  count is_delay (flat_map (retry_block profile) l) = List.length l /\
  count is_disconnect (flat_map (retry_block profile) l) = 0%nat.
Proof.
  induction l as [|o l (IH1 & IH2 & IH3)]; [repeat split|].
  cbn [flat_map]. rewrite !count_app, IH1, IH2, IH3. repeat split.
Qed.

Lemma count_ConnectWifi_events profile f k ok :
  count is_connect (ConnectWifi_events profile f k ok) = S k /\
  count is_delay (ConnectWifi_events profile f k ok) = S k /\
  count is_disconnect (ConnectWifi_events profile f k ok) = 0%nat.
Proof.
  unfold ConnectWifi_events, loop_events.
  change (?e :: ?a ++ ?b)%list with ([e] ++ a ++ b)%list.
  rewrite !count_app.
  destruct (count_retry_blocks profile (map f (seq 0 k))) as (-> & -> & ->).
  rewrite length_map, length_seq.
  destruct ok; cbn; repeat split; lia.
Qed.

(** *** The order of the calls of a run *)

Lemma connects_then_delay_sound (evs : list event) :
  connects_then_delay evs = true -> each_connect_followed_by_delay evs.
Proof.
  intros H pre. revert evs H.
  induction pre as [|e pre IH]; intros evs' H p r ip post E; subst evs'.
  - cbn in H. apply andb_true_iff in H. destruct H as [H _].
    destruct post as [|[] post]; try discriminate.
    destruct ms as [|ms|ms]; try discriminate.
    exists post. f_equal. f_equal.
    repeat (destruct ms as [ms|ms|]; try discriminate). reflexivity.
  - cbn [app connects_then_delay] in H. apply andb_true_iff in H. destruct H as [_ H].
    exact (IH _ H p r ip post eq_refl).
Qed.

Lemma delays_after_connect_sound (evs : list event) :
  delays_after_connect false evs = true -> each_delay_follows_connect evs.
Proof.
  assert (G : forall (pre : list event) prev l ms post,
             delays_after_connect prev l = true ->
             l = (pre ++ Call_delay_milliseconds ms :: post)%list ->
             ms = 500 /\
             ((pre = [] /\ prev = true) \/
              exists pre' p r ip, pre = (pre' ++ [Call_connect_ap p r ip])%list)).
  { induction pre as [|e pre IH]; intros prev l ms post H E; subst l.
    - cbn in H. apply andb_true_iff in H. destruct H as [H _].
      apply andb_true_iff in H. destruct H as [Hp Hms].
      apply Z.eqb_eq in Hms. split; [exact Hms | left; split; [reflexivity | exact Hp]].
    - cbn [app delays_after_connect] in H. apply andb_true_iff in H. destruct H as [_ H].
      destruct (IH _ _ ms post H eq_refl) as [Hms [[-> Hc] | (pre' & p & r & ip & ->)]].
      + split; [exact Hms | right]. destruct e; try discriminate.
        exists [], params, ret0, v4. reflexivity.
      + split; [exact Hms | right]. exists (e :: pre'), p, r, ip. reflexivity. }
  intros H pre ms post E.
  destruct (G pre false evs ms post H E) as [Hms [[_ F] | Hpre]]; [discriminate|].
  split; assumption.
Qed.

Lemma order_retry_blocks profile (l : list (cy_rslt_t * Z)) (rest : list event) prev :
  connects_then_delay (flat_map (retry_block profile) l ++ rest) = connects_then_delay rest /\
  (prev = false ->
   delays_after_connect prev (flat_map (retry_block profile) l ++ rest) =
   delays_after_connect prev rest).
Proof.
  revert prev. induction l as [|o l IH]; intros prev; [split; reflexivity|].
  destruct (IH false) as [IH1 IH2]. split.
  - cbn. exact IH1.
  - intros ->. cbn. exact (IH2 eq_refl).
Qed.

Lemma order_ConnectWifi_events profile f k ok :
  connects_then_delay (ConnectWifi_events profile f k ok) = true /\
  delays_after_connect false (ConnectWifi_events profile f k ok) = true.
Proof.
  unfold ConnectWifi_events, loop_events.
  destruct (order_retry_blocks profile (map f (seq 0 k)) (final_block profile ok (f k)) false)
    as [H1 H2].
  split.
  - cbn [connects_then_delay is_connect andb]. rewrite H1. destruct ok; reflexivity.
  - cbn [delays_after_connect is_connect andb]. rewrite (H2 eq_refl). destruct ok; reflexivity.
Qed.

(** *** The claims on the retry loop *)

(** C2. For every sequence of associate-call outcomes, [ConnectWifi] returns
    after at most [MAX_WIFI_CONN_RETRIES] = 15 associate calls (any fuel of at
    least 15 iterations is enough for the loop to finish): when the first 15
    attempts all fail it returns the error [CY_RSLT_ERROR] after exactly 15
    calls, and when the first success is the attempt of index [k] it returns
    [CY_RSLT_SUCCESS] after exactly [k + 1] calls. *)
Theorem ConnectWifi_bounded_retries (fuel : nat) (profile : cy_wcm_itwt_profile_t) (w : world) :
  (15 <= fuel)%nat ->
  exists r w' evs,
    ConnectWifi fuel profile w = (Done r, w') /\
    trace w' = (trace w ++ evs)%list /\
    Z.of_nat (count is_connect evs) <= MAX_WIFI_CONN_RETRIES /\
    ((forall i, (i < 15)%nat -> fst (associate_outcomes w i) <> CY_RSLT_SUCCESS) ->
     r = CY_RSLT_ERROR /\ Z.of_nat (count is_connect evs) = MAX_WIFI_CONN_RETRIES) /\
    (forall k, (k < 15)%nat ->
       (forall i, (i < k)%nat -> fst (associate_outcomes w i) <> CY_RSLT_SUCCESS) ->
       fst (associate_outcomes w k) = CY_RSLT_SUCCESS ->
       r = CY_RSLT_SUCCESS /\ count is_connect evs = S k).
Proof.
  intros Hfuel.
  destruct (run_shape_exists (associate_outcomes w)) as (k0 & ok0 & Hshape).
  exists (loop_result ok0), (ConnectWifi_world profile k0 ok0 w),
         (ConnectWifi_events profile (associate_outcomes w) k0 ok0).
  destruct (count_ConnectWifi_events profile (associate_outcomes w) k0 ok0) as (Hc & _ & _).
  rewrite Hc. unfold MAX_WIFI_CONN_RETRIES.
  split; [exact (ConnectWifi_run fuel profile w k0 ok0 Hfuel Hshape)|].
  split; [reflexivity|].
  split; [destruct Hshape as (Hk & _); lia|].
  split.
  - intros Hall.
    destruct (run_shape_unique _ _ _ _ _ Hshape (run_shape_all_fail _ Hall)) as [-> ->].
    split; reflexivity.
  - intros k Hk Hfail Hok.
    destruct (run_shape_unique _ _ _ _ _ Hshape (run_shape_success _ k Hk Hfail Hok))
      as [-> ->].
    split; reflexivity.
Qed.

Lemma ConnectWifi_bounded_retries_witness :
  (15 <= 15)%nat /\
  exists r w' evs,
    ConnectWifi 15 CY_WCM_ITWT_PROFILE_IDLE (world0 false 0 (associates_at 2 16885952) 0)
      = (Done r, w') /\
    trace w' = (trace (world0 false 0 (associates_at 2 16885952) 0) ++ evs)%list /\
    Z.of_nat (count is_connect evs) <= MAX_WIFI_CONN_RETRIES /\
    ((forall i, (i < 15)%nat -> fst (associates_at 2 16885952 i) <> CY_RSLT_SUCCESS) ->
     r = CY_RSLT_ERROR /\ Z.of_nat (count is_connect evs) = MAX_WIFI_CONN_RETRIES) /\
    (forall k, (k < 15)%nat ->
       (forall i, (i < k)%nat -> fst (associates_at 2 16885952 i) <> CY_RSLT_SUCCESS) ->
       fst (associates_at 2 16885952 k) = CY_RSLT_SUCCESS ->
       r = CY_RSLT_SUCCESS /\ count is_connect evs = S k).
Proof.
  split; [lia|].
  apply (ConnectWifi_bounded_retries 15 CY_WCM_ITWT_PROFILE_IDLE
           (world0 false 0 (associates_at 2 16885952) 0)).
  lia.
Defined.

(** The loop is cut off only when the fuel is below the retry bound. *)
Example ConnectWifi_needs_15_iterations :
  result_of (ConnectWifi 14 CY_WCM_ITWT_PROFILE_NONE) (world0 false 0 never_associates 0)
    = OutOfFuel /\
  result_of (ConnectWifi 15 CY_WCM_ITWT_PROFILE_NONE) (world0 false 0 never_associates 0)
    = Done CY_RSLT_ERROR /\
  count is_connect
    (events_of (ConnectWifi 15 CY_WCM_ITWT_PROFILE_NONE) (world0 false 0 never_associates 0))
    = 15%nat.
Proof. vm_compute. repeat split. Qed.

(** C3, as the spec states it, fails: when every attempt fails the delay that
    follows the 15th associate call comes before the exhausted-retries report
    and no associate call comes after it. *)
Lemma ConnectWifi_delay_after_last_failure :
  ~ delay_only_between_attempts
      (events_of (ConnectWifi 15 CY_WCM_ITWT_PROFILE_NONE)
                 (world0 false 0 never_associates 0)).
Proof.
  intros H.
  destruct (H (firstn 44
                 (events_of (ConnectWifi 15 CY_WCM_ITWT_PROFILE_NONE)
                            (world0 false 0 never_associates 0)))
              500
              [Call_printf "Exceeded max WiFi connection attempts\n" []])
    as [_ Hafter].
  - vm_compute. reflexivity.
  - discriminate Hafter.
Qed.

(** C3, amended. In every run of [ConnectWifi] each delay lasts 500 ms and
    directly follows an associate call; hence no delay comes before the first
    associate call.  The delay is applied after every attempt: every
    associate call is directly followed by a delay, so that there are as many
    delays as associate calls (at least one).  This includes the last failed
    attempt: when the retries are exhausted the trace ends with the 15th
    associate call, the delay, and the exhausted-retries report. *)
Theorem ConnectWifi_delay_placement (fuel : nat) (profile : cy_wcm_itwt_profile_t) (w : world) :
  (15 <= fuel)%nat ->
  exists r w' evs,
    ConnectWifi fuel profile w = (Done r, w') /\
    trace w' = (trace w ++ evs)%list /\
    each_delay_follows_connect evs /\
    (forall (pre : list event) ms post,
       evs = (pre ++ Call_delay_milliseconds ms :: post)%list ->
       existsb is_connect pre = true) /\
    each_connect_followed_by_delay evs /\
    count is_delay evs = count is_connect evs /\
    (1 <= count is_connect evs)%nat /\
    (r = CY_RSLT_ERROR ->
     exists (pre : list event) p c ip,
       c <> CY_RSLT_SUCCESS /\
       count is_connect pre = 14%nat /\
       evs = (pre ++ [Call_connect_ap p c ip; Call_delay_milliseconds 500;
                      Call_printf "Exceeded max WiFi connection attempts\n" []])%list).
Proof.
  intros Hfuel.
  destruct (run_shape_exists (associate_outcomes w)) as (k & ok & Hshape).
  exists (loop_result ok), (ConnectWifi_world profile k ok w),
         (ConnectWifi_events profile (associate_outcomes w) k ok).
  destruct (order_ConnectWifi_events profile (associate_outcomes w) k ok) as [Hc Hd].
  apply delays_after_connect_sound in Hd.
  apply connects_then_delay_sound in Hc.
  destruct (count_ConnectWifi_events profile (associate_outcomes w) k ok) as (Hn & Hm & _).
  split; [exact (ConnectWifi_run fuel profile w k ok Hfuel Hshape)|].
  split; [reflexivity|]. split; [exact Hd|]. split; [|split; [exact Hc|]].
  - intros pre ms post E. destruct (Hd pre ms post E) as [_ (pre' & p & r & ip & ->)].
    rewrite existsb_app. cbn. apply orb_true_r.
  - split; [congruence|]. split; [rewrite Hn; lia|].
    destruct ok; [discriminate|]. intros _.
    destruct Hshape as (_ & _ & -> & Hf).
    exists (Call_printf "Connecting to Wi-Fi Network: %s\n" [ArgS WIFI_SSID]
            :: flat_map (retry_block profile) (map (associate_outcomes w) (seq 0 14))),
           (params_for profile), (fst (associate_outcomes w 14%nat)),
           (snd (associate_outcomes w 14%nat)).
    split; [exact Hf|]. split; [|reflexivity].
    change (?e :: ?a)%list with ([e] ++ a)%list. rewrite count_app.
    destruct (count_retry_blocks profile (map (associate_outcomes w) (seq 0 14))) as (-> & _).
    reflexivity.
Qed.

Lemma ConnectWifi_delay_placement_witness :
  (15 <= 15)%nat /\
  exists r w' evs,
    ConnectWifi 15 CY_WCM_ITWT_PROFILE_ACTIVE (world0 false 0 never_associates 0)
      = (Done r, w') /\
    trace w' = (trace (world0 false 0 never_associates 0) ++ evs)%list /\
    each_delay_follows_connect evs /\
    (forall (pre : list event) ms post,
       evs = (pre ++ Call_delay_milliseconds ms :: post)%list ->
       existsb is_connect pre = true) /\
    each_connect_followed_by_delay evs /\
    count is_delay evs = count is_connect evs /\
    (1 <= count is_connect evs)%nat /\
    (r = CY_RSLT_ERROR ->
     exists (pre : list event) p c ip,
       c <> CY_RSLT_SUCCESS /\
       count is_connect pre = 14%nat /\
       evs = (pre ++ [Call_connect_ap p c ip; Call_delay_milliseconds 500;
                      Call_printf "Exceeded max WiFi connection attempts\n" []])%list).
Proof.
  split; [lia|].
  apply (ConnectWifi_delay_placement 15 CY_WCM_ITWT_PROFILE_ACTIVE
           (world0 false 0 never_associates 0)).
  lia.
Defined.

(** C9. In every run of [ConnectWifi] the 500 ms delay is executed directly
    after every associate call, the successful one included: there are as
    many delays as associate calls, and on success the trace ends with the
    successful associate call, the delay, the success report and the
    address. *)
Theorem ConnectWifi_delay_after_every_attempt
    (fuel : nat) (profile : cy_wcm_itwt_profile_t) (w : world) :
  (15 <= fuel)%nat ->
  exists r w' evs,
    ConnectWifi fuel profile w = (Done r, w') /\
    trace w' = (trace w ++ evs)%list /\
    each_connect_followed_by_delay evs /\
    count is_delay evs = count is_connect evs /\
    (r = CY_RSLT_SUCCESS ->
     exists (pre : list event) p ip,
       evs = (pre ++ [Call_connect_ap p CY_RSLT_SUCCESS ip;
                      Call_delay_milliseconds 500;
                      Call_printf "Successfully connected to Wi-Fi network '%s'.\n"
                                  [ArgS WIFI_SSID];
                      Call_printf "IP Address %s assigned\n" [ArgS (ip_text ip)]])%list).
Proof.
  intros Hfuel.
  destruct (run_shape_exists (associate_outcomes w)) as (k & ok & Hshape).
  exists (loop_result ok), (ConnectWifi_world profile k ok w),
         (ConnectWifi_events profile (associate_outcomes w) k ok).
  destruct (order_ConnectWifi_events profile (associate_outcomes w) k ok) as [Hc _].
  destruct (count_ConnectWifi_events profile (associate_outcomes w) k ok) as (Hn & Hm & _).
  split; [exact (ConnectWifi_run fuel profile w k ok Hfuel Hshape)|].
  split; [reflexivity|].
  split; [exact (connects_then_delay_sound _ Hc)|].
  split; [congruence|].
  destruct ok; [intros _ | intros F; exfalso; exact (CY_RSLT_ERROR_not_success F)].
  destruct Hshape as (_ & _ & Hok).
  exists (Call_printf "Connecting to Wi-Fi Network: %s\n" [ArgS WIFI_SSID]
          :: flat_map (retry_block profile) (map (associate_outcomes w) (seq 0 k))),
         (params_for profile), (snd (associate_outcomes w k)).
  unfold ConnectWifi_events, loop_events, final_block, success_block, attempt_events.
  rewrite Hok. reflexivity.
Qed.

Lemma ConnectWifi_delay_after_every_attempt_witness :
  (15 <= 20)%nat /\
  exists r w' evs,
    ConnectWifi 20 CY_WCM_ITWT_PROFILE_NONE (world0 false 0 (associates_at 0 16885952) 0)
      = (Done r, w') /\
    trace w' = (trace (world0 false 0 (associates_at 0 16885952) 0) ++ evs)%list /\
    each_connect_followed_by_delay evs /\
    count is_delay evs = count is_connect evs /\
    (r = CY_RSLT_SUCCESS ->
     exists (pre : list event) p ip,
       evs = (pre ++ [Call_connect_ap p CY_RSLT_SUCCESS ip;
                      Call_delay_milliseconds 500;
                      Call_printf "Successfully connected to Wi-Fi network '%s'.\n"
                                  [ArgS WIFI_SSID];
                      Call_printf "IP Address %s assigned\n" [ArgS (ip_text ip)]])%list).
Proof.
  split; [lia|].
  apply (ConnectWifi_delay_after_every_attempt 20 CY_WCM_ITWT_PROFILE_NONE
           (world0 false 0 (associates_at 0 16885952) 0)).
  lia.
Defined.

Example ConnectWifi_first_try_events :
  events_of (ConnectWifi 15 CY_WCM_ITWT_PROFILE_ACTIVE)
            (world0 false 0 (associates_at 0 16885952) 0) =
  [Call_printf "Connecting to Wi-Fi Network: %s\n" [ArgS ""];
   Call_connect_ap (params_for CY_WCM_ITWT_PROFILE_ACTIVE) 0 16885952;
   Call_delay_milliseconds 500;
   Call_printf "Successfully connected to Wi-Fi network '%s'.\n" [ArgS ""];
   Call_printf "IP Address %s assigned\n" [ArgS "192.168.1.1"]].
Proof. reflexivity. Qed.

(** *** The address *)

Lemma ip_fields_range (ip : Z) :
  let '(a, b, c, d) := ip_fields ip in
  0 <= a <= 255 /\ 0 <= b <= 255 /\ 0 <= c <= 255 /\ 0 <= d <= 255.
Proof.
  unfold ip_fields.
  pose proof (land_255_range ip).
  pose proof (land_255_range (Z.shiftr ip 8)).
  pose proof (land_255_range (Z.shiftr ip 16)).
  pose proof (land_255_range (Z.shiftr ip 24)).
  lia.
Qed.

(** C6. When [ConnectWifi] succeeds, the last thing it prints is the address
    [ip] written by the successful associate call, as a text of the form
    [d.d.d.d]: read back, its four decimal fields are the four 8-bit extracts
    of [ip], each in the range 0..255.  This holds for every value of the
    address. *)
Theorem ConnectWifi_prints_dotted_quad
    (fuel : nat) (profile : cy_wcm_itwt_profile_t) (w w' : world) :
  (15 <= fuel)%nat ->
  ConnectWifi fuel profile w = (Done CY_RSLT_SUCCESS, w') ->
  exists (k : nat) (pre : list event) (a b c d : Z),
    let ip := snd (associate_outcomes w k) in
    (k < 15)%nat /\ fst (associate_outcomes w k) = CY_RSLT_SUCCESS /\
    trace w' = (pre ++ [Call_printf "IP Address %s assigned\n" [ArgS (ip_text ip)]])%list /\
    parse_dotted_quad (ip_text ip) = Some (a, b, c, d) /\
    a = Z.land ip 255 /\ b = Z.land (Z.shiftr ip 8) 255 /\
    c = Z.land (Z.shiftr ip 16) 255 /\ d = Z.land (Z.shiftr ip 24) 255 /\
    0 <= a <= 255 /\ 0 <= b <= 255 /\ 0 <= c <= 255 /\ 0 <= d <= 255.
Proof.
  intros Hfuel Hrun.
  destruct (run_shape_exists (associate_outcomes w)) as (k & ok & Hshape).
  rewrite (ConnectWifi_run fuel profile w k ok Hfuel Hshape) in Hrun.
  destruct ok; [|exfalso; inversion Hrun as [[F _]]; exact (CY_RSLT_ERROR_not_success F)].
  inversion Hrun as [Hw]. clear Hrun Hw.
  destruct Hshape as (Hk & _ & Hok).
  pose proof (ip_fields_range (snd (associate_outcomes w k))) as R.
  pose proof (parse_ip_text (snd (associate_outcomes w k))) as P.
  unfold ip_fields in R, P.
  exists k,
    (trace w ++
     Call_printf "Connecting to Wi-Fi Network: %s\n" [ArgS WIFI_SSID]
     :: flat_map (retry_block profile) (map (associate_outcomes w) (seq 0 k)) ++
        attempt_events profile (associate_outcomes w k) ++
        [Call_printf "Successfully connected to Wi-Fi network '%s'.\n" [ArgS WIFI_SSID]])%list.
  do 4 eexists. cbv zeta.
  split; [exact Hk|]. split; [exact Hok|].
  split.
  - unfold ConnectWifi_world, ConnectWifi_events, loop_events, final_block, success_block.
    cbn [trace]. rewrite <- !app_assoc. cbn [app]. rewrite <- !app_assoc. reflexivity.
  - split; [exact P|]. repeat split; try reflexivity; lia.
Qed.

Lemma ConnectWifi_prints_dotted_quad_witness :
  (15 <= 15)%nat /\
  ConnectWifi 15 CY_WCM_ITWT_PROFILE_IDLE (world0 false 0 (associates_at 1 16885952) 0)
    = (Done CY_RSLT_SUCCESS,
       snd (ConnectWifi 15 CY_WCM_ITWT_PROFILE_IDLE
              (world0 false 0 (associates_at 1 16885952) 0))) /\
  exists (k : nat) (pre : list event) (a b c d : Z),
    let ip := snd (associates_at 1 16885952 k) in
    (k < 15)%nat /\ fst (associates_at 1 16885952 k) = CY_RSLT_SUCCESS /\
    trace (snd (ConnectWifi 15 CY_WCM_ITWT_PROFILE_IDLE
                  (world0 false 0 (associates_at 1 16885952) 0)))
      = (pre ++ [Call_printf "IP Address %s assigned\n" [ArgS (ip_text ip)]])%list /\
    parse_dotted_quad (ip_text ip) = Some (a, b, c, d) /\
    a = Z.land ip 255 /\ b = Z.land (Z.shiftr ip 8) 255 /\
    c = Z.land (Z.shiftr ip 16) 255 /\ d = Z.land (Z.shiftr ip 24) 255 /\
    0 <= a <= 255 /\ 0 <= b <= 255 /\ 0 <= c <= 255 /\ 0 <= d <= 255.
Proof.
  split; [lia|]. split; [vm_compute; reflexivity|].
  apply (ConnectWifi_prints_dotted_quad 15 CY_WCM_ITWT_PROFILE_IDLE
           (world0 false 0 (associates_at 1 16885952) 0)); [lia | vm_compute; reflexivity].
Defined.

(** C10. For every address value the text written by [get_ip_string] has at
    most 15 characters, each of the four fields having at most three digits,
    so that with its terminating NUL it takes at most [IP_STR_LEN] = 16 bytes:
    the write into the buffer of [ConnectWifi] never overflows. *)
Theorem ip_string_never_overflows_buffer (ip : Z) (w : world) :
  (String.length (fmt_lu (Z.land ip 255)) <= 3)%nat /\
  (String.length (fmt_lu (Z.land (Z.shiftr ip 8) 255)) <= 3)%nat /\
  (String.length (fmt_lu (Z.land (Z.shiftr ip 16) 255)) <= 3)%nat /\
  (String.length (fmt_lu (Z.land (Z.shiftr ip 24) 255)) <= 3)%nat /\
  (String.length (ip_text ip) <= 15)%nat /\
  sprintf_bytes (ip_text ip) <= IP_STR_LEN /\
  get_ip_string IP_STR_LEN ip w = (Done (ip_text ip), w).
Proof.
  destruct (fmt_lu_octet _ (land_255_range ip)) as (_ & _ & L0).
  destruct (fmt_lu_octet _ (land_255_range (Z.shiftr ip 8))) as (_ & _ & L1).
  destruct (fmt_lu_octet _ (land_255_range (Z.shiftr ip 16))) as (_ & _ & L2).
  destruct (fmt_lu_octet _ (land_255_range (Z.shiftr ip 24))) as (_ & _ & L3).
  pose proof (ip_text_length ip) as L.
  repeat split; try lia.
  - unfold sprintf_bytes, IP_STR_LEN. lia.
  - apply get_ip_string_fits.
Qed.

(** A buffer one byte shorter would overflow on the widest address. *)
Example get_ip_string_needs_16_bytes :
  result_of (get_ip_string 15 4294967295) (world0 false 0 never_associates 0) = Undefined.
Proof. reflexivity. Qed.

(** ** itwt_setup *)

Lemma itwt_setup_guard fuel argc argv w :
  argc < 1 ->
  itwt_setup fuel argc argv w =
  (Done (-1),
   emit (Call_printf
           "Insufficient number of arguments. Command format: itwt_setup <profile>\n" []) w).
Proof.
  intros H. unfold itwt_setup. apply Z.ltb_lt in H. rewrite H. reflexivity.
Qed.

Lemma itwt_setup_not_connected fuel argc argv w :
  1 <= argc -> ap_connected w = false ->
  itwt_setup fuel argc argv w =
  setup_profile_block fuel argv (emit (Call_is_connected_to_ap false) w).
Proof.
  intros Hargc Hc. pass_guard argc.
  destruct w as [cp tm ac dc ao td lo tr]. cbn [ap_connected] in Hc. subst ac.
  unfold setup_profile_block. eval_monad. reflexivity.
Qed.

Lemma itwt_setup_disconnect_failed fuel argc argv w :
  1 <= argc -> ap_connected w = true -> disconnect_outcome w <> CY_RSLT_SUCCESS ->
  itwt_setup fuel argc argv w =
  (Done (to_int (disconnect_outcome w)),
   emit (Call_printf ("Failed to disconnect from AP! Error code: 0x%08" ++ PRIx32 ++ "\n")%string
                     [ArgX32 (disconnect_outcome w)])
        (after_disconnect w)).
Proof.
  intros Hargc Hc Hd. pass_guard argc.
  destruct w as [cp tm ac dc ao td lo tr]. cbn [ap_connected disconnect_outcome] in Hc, Hd.
  subst ac. apply Z.eqb_neq in Hd.
  unfold after_disconnect, disconnect_events. eval_monad.
  rewrite Hd. cbv [negb]. rewrite <- ?app_assoc. reflexivity.
Qed.

Lemma itwt_setup_disconnected fuel argc argv w :
  1 <= argc -> ap_connected w = true -> disconnect_outcome w = CY_RSLT_SUCCESS ->
  itwt_setup fuel argc argv w = setup_profile_block fuel argv (after_disconnect w).
Proof.
  intros Hargc Hc Hd. pass_guard argc.
  destruct w as [cp tm ac dc ao td lo tr]. cbn [ap_connected disconnect_outcome] in Hc, Hd.
  subst ac dc.
  unfold setup_profile_block, after_disconnect, disconnect_events. eval_monad.
  cbv [CY_RSLT_SUCCESS Z.eqb negb]. rewrite <- ?app_assoc. reflexivity.
Qed.

Lemma setup_profile_block_missing fuel argv w :
  nth_error argv 1 = None -> setup_profile_block fuel argv w = (Undefined, w).
Proof.
  intros H. unfold setup_profile_block, bind, argv_read. rewrite H. reflexivity.
Qed.

Lemma setup_profile_block_invalid fuel argv a w :
  nth_error argv 1 = Some a -> a <> "active" -> a <> "idle" ->
  setup_profile_block fuel argv w = (Done (-1), emit (Call_printf "Invalid Profile\n" []) w).
Proof.
  intros H Ha Hi. unfold setup_profile_block, argv_read. rewrite H.
  unfold bind at 1. unfold ret at 1. unfold strcmp_eq.
  apply String.eqb_neq in Ha, Hi. rewrite Ha, Hi. reflexivity.
Qed.

Lemma profile_of_token_valid a :
  a = "active" \/ a = "idle" -> exists p, profile_of_token a = Some p.
Proof. intros [-> | ->]; eexists; reflexivity. Qed.

Lemma setup_profile_block_valid fuel argv a p w k ok :
  (15 <= fuel)%nat -> nth_error argv 1 = Some a -> profile_of_token a = Some p ->
  run_shape (associate_outcomes w) k ok ->
  setup_profile_block fuel argv w =
  (Done (to_int (loop_result ok)), ConnectWifi_world p k ok w).
Proof.
  intros Hfuel H Hp Hshape. unfold setup_profile_block, argv_read. rewrite H.
  unfold bind at 1. unfold ret at 1. unfold profile_of_token in Hp.
  destruct (strcmp_eq a "idle").
  - inversion Hp; subst p. unfold bind.
    rewrite (ConnectWifi_run fuel _ w k ok Hfuel Hshape). reflexivity.
  - destruct (strcmp_eq a "active"); [|discriminate].
    inversion Hp; subst p. unfold bind.
    rewrite (ConnectWifi_run fuel _ w k ok Hfuel Hshape). reflexivity.
Qed.

(** C1, as the spec states it, fails when the station is connected: the
    handler disconnects before it looks at the profile token, so an invalid
    token costs one disconnection call; and when that call fails its code is
    returned, not -1. *)
Lemma invalid_profile_costs_a_disconnect :
  "foo" <> "active" /\ "foo" <> "idle" /\
  ~ (result_of (itwt_setup 15 2 ["itwt_setup"; "foo"]) (world0 true 0 never_associates 0)
       = Done (-1) /\
     count is_connect
       (events_of (itwt_setup 15 2 ["itwt_setup"; "foo"]) (world0 true 0 never_associates 0))
       = 0%nat /\
     count is_disconnect
       (events_of (itwt_setup 15 2 ["itwt_setup"; "foo"]) (world0 true 0 never_associates 0))
       = 0%nat) /\
  result_of (itwt_setup 15 2 ["itwt_setup"; "foo"]) (world0 true 33554436 never_associates 0)
    = Done 33554436.
Proof.
  split; [discriminate|]. split; [discriminate|]. split; [|reflexivity].
  intros (_ & _ & H). vm_compute in H. discriminate H.
Qed.

(** C1, amended. For every invocation of [itwt_setup] whose profile argument
    is neither [active] nor [idle], no association call is issued.  When the
    station is not connected the handler returns -1 and issues no
    disconnection call.  When the station is connected the handler first
    issues exactly one disconnection call; it then returns -1 if that call
    succeeded, and the code of that call if it failed. *)
Theorem itwt_setup_invalid_profile
    (fuel : nat) (argc : Z) (argv : list string) (a : string) (w : world) :
  1 <= argc -> nth_error argv 1 = Some a -> a <> "active" -> a <> "idle" ->
  exists code w' evs,
    itwt_setup fuel argc argv w = (Done code, w') /\
    trace w' = (trace w ++ evs)%list /\
    count is_connect evs = 0%nat /\
    (ap_connected w = false -> code = -1 /\ count is_disconnect evs = 0%nat) /\
    (ap_connected w = true ->
     count is_disconnect evs = 1%nat /\
     (disconnect_outcome w = CY_RSLT_SUCCESS -> code = -1) /\
     (disconnect_outcome w <> CY_RSLT_SUCCESS -> code = to_int (disconnect_outcome w))).
Proof.
  intros Hargc Harg Ha Hi.
  destruct (ap_connected w) eqn:Hc.
  - destruct (Z.eq_dec (disconnect_outcome w) CY_RSLT_SUCCESS) as [Hd | Hd].
    + rewrite (itwt_setup_disconnected fuel argc argv w Hargc Hc Hd).
      rewrite (setup_profile_block_invalid fuel argv a _ Harg Ha Hi).
      eexists _, _, (disconnect_events w ++ [Call_printf "Invalid Profile\n" []])%list.
      split; [reflexivity|]. split; [cbn; rewrite <- app_assoc; reflexivity|].
      split; [reflexivity|]. split; [discriminate|]. intros _.
      split; [reflexivity|]. split; [reflexivity | contradiction].
    + rewrite (itwt_setup_disconnect_failed fuel argc argv w Hargc Hc Hd).
      eexists _, _, (disconnect_events w ++ [_])%list.
      split; [reflexivity|]. split; [cbn; rewrite <- app_assoc; reflexivity|].
      split; [reflexivity|]. split; [discriminate|]. intros _.
      split; [reflexivity|]. split; [contradiction | reflexivity].
  - rewrite (itwt_setup_not_connected fuel argc argv w Hargc Hc).
    rewrite (setup_profile_block_invalid fuel argv a _ Harg Ha Hi).
    eexists _, _, [Call_is_connected_to_ap false; Call_printf "Invalid Profile\n" []].
    split; [reflexivity|]. split; [cbn; rewrite <- app_assoc; reflexivity|].
    split; [reflexivity|]. split; [split; reflexivity | discriminate].
Qed.

Lemma itwt_setup_invalid_profile_witness :
  1 <= 2 /\ nth_error ["itwt_setup"; "sleepy"] 1 = Some "sleepy" /\
  "sleepy" <> "active" /\ "sleepy" <> "idle" /\
  exists code w' evs,
    itwt_setup 15 2 ["itwt_setup"; "sleepy"] (world0 true 0 never_associates 0)
      = (Done code, w') /\
    trace w' = (trace (world0 true 0 never_associates 0) ++ evs)%list /\
    count is_connect evs = 0%nat /\
    (ap_connected (world0 true 0 never_associates 0) = false ->
     code = -1 /\ count is_disconnect evs = 0%nat) /\
    (ap_connected (world0 true 0 never_associates 0) = true ->
     count is_disconnect evs = 1%nat /\
     (disconnect_outcome (world0 true 0 never_associates 0) = CY_RSLT_SUCCESS -> code = -1) /\
     (disconnect_outcome (world0 true 0 never_associates 0) <> CY_RSLT_SUCCESS ->
      code = to_int (disconnect_outcome (world0 true 0 never_associates 0)))).
Proof.
  split; [lia|]. split; [reflexivity|]. split; [discriminate|]. split; [discriminate|].
  apply (itwt_setup_invalid_profile 15 2 ["itwt_setup"; "sleepy"] "sleepy"
           (world0 true 0 never_associates 0));
    [lia | reflexivity | discriminate | discriminate].
Defined.

(** C4. For every invocation of [itwt_setup] with a valid profile token: if
    the station is connected, exactly one disconnection call is made and no
    association call precedes it; if that disconnection fails, no association
    call is made at all and the handler returns the code of the disconnection
    (the same 32-bit value, non-zero); if the station is not connected, no
    disconnection call is made. *)
Theorem itwt_setup_disconnects_before_connect
    (fuel : nat) (argc : Z) (argv : list string) (a : string) (w : world) :
  (15 <= fuel)%nat -> 1 <= argc -> nth_error argv 1 = Some a ->
  a = "active" \/ a = "idle" ->
  cy_rslt_wf (disconnect_outcome w) ->
  exists code w' evs,
    itwt_setup fuel argc argv w = (Done code, w') /\
    trace w' = (trace w ++ evs)%list /\
    (ap_connected w = true ->
     count is_disconnect evs = 1%nat /\
     (exists pre post : list event,
        evs = (pre ++ Call_disconnect_ap (disconnect_outcome w) :: post)%list /\
        count is_connect pre = 0%nat /\ count is_disconnect post = 0%nat) /\
     (disconnect_outcome w <> CY_RSLT_SUCCESS ->
      count is_connect evs = 0%nat /\
      code = to_int (disconnect_outcome w) /\
      to_uint32 code = disconnect_outcome w /\ code <> 0) /\
     (disconnect_outcome w = CY_RSLT_SUCCESS -> (1 <= count is_connect evs)%nat)) /\
    (ap_connected w = false ->
     count is_disconnect evs = 0%nat /\ (1 <= count is_connect evs)%nat).
Proof.
  intros Hfuel Hargc Harg Hvalid Hwf.
  destruct (profile_of_token_valid a Hvalid) as [p Hp].
  destruct (run_shape_exists (associate_outcomes w)) as (k & ok & Hshape).
  destruct (count_ConnectWifi_events p (associate_outcomes w) k ok) as (Hn & _ & Hz).
  destruct (ap_connected w) eqn:Hc.
  - destruct (Z.eq_dec (disconnect_outcome w) CY_RSLT_SUCCESS) as [Hd | Hd].
    + rewrite (itwt_setup_disconnected fuel argc argv w Hargc Hc Hd).
      rewrite (setup_profile_block_valid fuel argv a p (after_disconnect w) k ok
                 Hfuel Harg Hp Hshape).
      eexists _, _, (disconnect_events w ++
                     ConnectWifi_events p (associate_outcomes w) k ok)%list.
      split; [reflexivity|]. split; [cbn; rewrite <- app_assoc; reflexivity|].
      split; [intros _ | discriminate].
      split; [rewrite count_app, Hz; reflexivity|].
      split; [|split; [contradiction | intros _; rewrite count_app, Hn; cbn; lia]].
      exists [Call_is_connected_to_ap true;
              Call_printf "Already connected. Disconnecting from AP!!\n" []],
             (ConnectWifi_events p (associate_outcomes w) k ok).
      split; [reflexivity|]. split; [reflexivity | exact Hz].
    + rewrite (itwt_setup_disconnect_failed fuel argc argv w Hargc Hc Hd).
      eexists _, _, (disconnect_events w ++ [_])%list.
      split; [reflexivity|]. split; [cbn; rewrite <- app_assoc; reflexivity|].
      split; [intros _ | discriminate].
      split; [reflexivity|].
      split; [|split; [intros _ | contradiction]].
      * exists [Call_is_connected_to_ap true;
                Call_printf "Already connected. Disconnecting from AP!!\n" []].
        eexists. split; [reflexivity|]. split; reflexivity.
      * split; [reflexivity|]. split; [reflexivity|].
        split; [apply to_uint32_to_int; exact Hwf|].
        intros F. apply (to_int_zero_iff _ Hwf) in F. exact (Hd F).
  - rewrite (itwt_setup_not_connected fuel argc argv w Hargc Hc).
    rewrite (setup_profile_block_valid fuel argv a p
               (emit (Call_is_connected_to_ap false) w) k ok Hfuel Harg Hp Hshape).
    eexists _, _, (Call_is_connected_to_ap false
                   :: ConnectWifi_events p (associate_outcomes w) k ok).
    split; [reflexivity|]. split; [cbn; rewrite <- app_assoc; reflexivity|].
    split; [discriminate | intros _].
    change (?e :: ?l)%list with ([e] ++ l)%list. rewrite !count_app, Hz, Hn.
    split; [reflexivity | cbn; lia].
Qed.

Lemma itwt_setup_disconnects_before_connect_witness :
  (15 <= 15)%nat /\ 1 <= 2 /\ nth_error ["itwt_setup"; "idle"] 1 = Some "idle" /\
  ("idle" = "active" \/ "idle" = "idle") /\
  cy_rslt_wf (disconnect_outcome (world0 true 0 (associates_at 0 16885952) 0)) /\
  exists code w' evs,
    itwt_setup 15 2 ["itwt_setup"; "idle"] (world0 true 0 (associates_at 0 16885952) 0)
      = (Done code, w') /\
    trace w' = (trace (world0 true 0 (associates_at 0 16885952) 0) ++ evs)%list /\
    (ap_connected (world0 true 0 (associates_at 0 16885952) 0) = true ->
     count is_disconnect evs = 1%nat /\
     (exists pre post : list event,
        evs = (pre ++ Call_disconnect_ap
                        (disconnect_outcome (world0 true 0 (associates_at 0 16885952) 0))
                   :: post)%list /\
        count is_connect pre = 0%nat /\ count is_disconnect post = 0%nat) /\
     (disconnect_outcome (world0 true 0 (associates_at 0 16885952) 0) <> CY_RSLT_SUCCESS ->
      count is_connect evs = 0%nat /\
      code = to_int (disconnect_outcome (world0 true 0 (associates_at 0 16885952) 0)) /\
      to_uint32 code = disconnect_outcome (world0 true 0 (associates_at 0 16885952) 0) /\
      code <> 0) /\
     (disconnect_outcome (world0 true 0 (associates_at 0 16885952) 0) = CY_RSLT_SUCCESS ->
      (1 <= count is_connect evs)%nat)) /\
    (ap_connected (world0 true 0 (associates_at 0 16885952) 0) = false ->
     count is_disconnect evs = 0%nat /\ (1 <= count is_connect evs)%nat).
Proof.
  split; [lia|]. split; [lia|]. split; [reflexivity|]. split; [right; reflexivity|].
  split; [unfold cy_rslt_wf; simpl; lia|].
  apply (itwt_setup_disconnects_before_connect 15 2 ["itwt_setup"; "idle"] "idle"
           (world0 true 0 (associates_at 0 16885952) 0));
    [lia | lia | reflexivity | right; reflexivity | unfold cy_rslt_wf; simpl; lia].
Defined.

(** The scenarios of the spec: setup while disconnected, setup while
    connected, and a failed disconnection. *)
Example itwt_setup_active_while_disconnected :
  result_of (itwt_setup 15 2 ["itwt_setup"; "active"])
            (world0 false 0 (associates_at 0 16885952) 0) = Done 0 /\
  events_of (itwt_setup 15 2 ["itwt_setup"; "active"])
            (world0 false 0 (associates_at 0 16885952) 0) =
  Call_is_connected_to_ap false
  :: ConnectWifi_events CY_WCM_ITWT_PROFILE_ACTIVE (associates_at 0 16885952) 0 true.
Proof. split; reflexivity. Qed.

Example itwt_setup_idle_while_connected :
  events_of (itwt_setup 15 2 ["itwt_setup"; "idle"])
            (world0 true 0 (associates_at 0 16885952) 0) =
  ([Call_is_connected_to_ap true;
    Call_printf "Already connected. Disconnecting from AP!!\n" [];
    Call_disconnect_ap 0]
   ++ ConnectWifi_events CY_WCM_ITWT_PROFILE_IDLE (associates_at 0 16885952) 0 true)%list.
Proof. reflexivity. Qed.

Example itwt_setup_disconnect_fails :
  result_of (itwt_setup 15 2 ["itwt_setup"; "idle"])
            (world0 true 33554436 (associates_at 0 16885952) 0) = Done 33554436 /\
  count is_connect
    (events_of (itwt_setup 15 2 ["itwt_setup"; "idle"])
               (world0 true 33554436 (associates_at 0 16885952) 0)) = 0%nat.
Proof. split; reflexivity. Qed.

(** The guard [argc < 1] of the handler alone does not cover a call that
    carries the command name only: called directly with [argc = 1], the
    handler passes the guard, disconnects the connected station and then
    reads [argv[1]], which was not supplied.  The dispatch never makes this
    call: it rejects the line before the handler runs. *)
Example itwt_setup_missing_profile_passes_guard :
  declared_min_args "itwt_setup" = Some 1 /\
  Z.of_nat (List.length ["itwt_setup"]) - 1 < 1 /\
  result_of (itwt_setup 15 1 ["itwt_setup"]) (world0 true 0 never_associates 0) = Undefined /\
  events_of (itwt_setup 15 1 ["itwt_setup"]) (world0 true 0 never_associates 0) =
  [Call_is_connected_to_ap true;
   Call_printf "Already connected. Disconnecting from AP!!\n" [];
   Call_disconnect_ap 0] /\
  result_of (itwt_setup 15 1 ["itwt_setup"]) (world0 false 0 never_associates 0) = Undefined.
Proof. repeat split. Qed.

(** The guard does reject an invocation without any argument vector entry. *)
Lemma itwt_setup_guard_rejects fuel argc argv w :
  argc < 1 ->
  result_of (itwt_setup fuel argc argv) w = Done (-1) /\
  count is_connect (skipn (List.length (trace w)) (events_of (itwt_setup fuel argc argv) w))
    = 0%nat /\
  count is_disconnect (skipn (List.length (trace w)) (events_of (itwt_setup fuel argc argv) w))
    = 0%nat.
Proof.
  intros H. unfold result_of, events_of. rewrite (itwt_setup_guard fuel argc argv w H).
  cbn [fst snd emit trace].
  rewrite skipn_app, Nat.sub_diag, skipn_all. cbn. repeat split.
Qed.

(** Whenever the profile token is missing and the guard is passed, the read
    of [argv[1]] is reached unless a disconnection failed before it. *)
Lemma itwt_setup_reads_missing_argument fuel argc argv w :
  1 <= argc -> nth_error argv 1 = None ->
  (ap_connected w = true -> disconnect_outcome w = CY_RSLT_SUCCESS) ->
  result_of (itwt_setup fuel argc argv) w = Undefined.
Proof.
  intros Hargc Harg Hd. unfold result_of. destruct (ap_connected w) eqn:Hc.
  - rewrite (itwt_setup_disconnected fuel argc argv w Hargc Hc (Hd eq_refl)).
    rewrite setup_profile_block_missing by assumption. reflexivity.
  - rewrite (itwt_setup_not_connected fuel argc argv w Hargc Hc).
    rewrite setup_profile_block_missing by assumption. reflexivity.
Qed.

(** ** The dispatch of itwt_setup *)

Lemma find_command_itwt_setup (cmd : cy_command_console_cmd_t) :
  find_command "itwt_setup" = Some cmd ->
  cmd_handler cmd = h_itwt_setup /\ cmd_arg_count cmd = 1.
Proof. intros H. vm_compute in H. inversion H. split; reflexivity. Qed.

(** When the dispatch runs the handler of [itwt_setup], the profile token is
    there: the read of [argv[1]] is inside the argument vector. *)
Lemma dispatch_runs_itwt_setup cmd fuel argv w :
  find_command "itwt_setup" = Some cmd ->
  cmd_arg_count cmd <= Z.of_nat (List.length argv) - 1 ->
  dispatch cmd fuel argv w = itwt_setup fuel (Z.of_nat (List.length argv)) argv w /\
  1 <= Z.of_nat (List.length argv) /\
  exists a, nth_error argv 1 = Some a.
Proof.
  intros Hcmd Hlen. destruct (find_command_itwt_setup cmd Hcmd) as [Hh Hmin].
  rewrite Hmin in Hlen. unfold dispatch. rewrite Hh, Hmin.
  destruct (Z.of_nat (List.length argv) - 1 <? 1) eqn:E; [apply Z.ltb_lt in E; lia|].
  split; [reflexivity|]. split; [lia|].
  destruct (nth_error argv 1) as [a|] eqn:Ha; [exists a; reflexivity|].
  apply nth_error_None in Ha. lia.
Qed.

(** C7. For every invocation of [itwt_setup] with fewer arguments than the
    declared minimum of the table (no profile token supplied), the status -1
    is returned before any handler side effect: the dispatch returns -1
    without running the handler and leaves the world as it is (no
    disconnection call, no association call, no event at all, and [argv[1]],
    which is absent, is not read).  The guard of the handler does the same
    for every argument count below that minimum: it returns -1 after the
    usage message only. *)
Theorem dispatch_rejects_missing_profile
    (cmd : cy_command_console_cmd_t) (fuel : nat) (argv : list string) (w : world) :
  find_command "itwt_setup" = Some cmd ->
  Z.of_nat (List.length argv) - 1 < cmd_arg_count cmd ->
  nth_error argv 1 = None /\
  dispatch cmd fuel argv w = (Done (-1), w) /\
  (forall argc args,
     argc < cmd_arg_count cmd ->
     exists w',
       itwt_setup fuel argc args w = (Done (-1), w') /\
       trace w' = trace w ++
         [Call_printf
            "Insufficient number of arguments. Command format: itwt_setup <profile>\n" []] /\
       count is_connect (trace w') = count is_connect (trace w) /\
       count is_disconnect (trace w') = count is_disconnect (trace w) /\
       unchanged_but_trace w w').
Proof.
  intros Hcmd Hlen. destruct (find_command_itwt_setup cmd Hcmd) as [Hh Hmin].
  rewrite Hmin in *.
  split; [apply nth_error_None; lia|]. split.
  - unfold dispatch. rewrite Hmin. apply Z.ltb_lt in Hlen. rewrite Hlen. reflexivity.
  - intros argc args Hargc. rewrite (itwt_setup_guard fuel argc args w Hargc).
    eexists. split; [reflexivity|]. split; [reflexivity|].
    cbn [trace emit]. rewrite !count_app. cbn. rewrite !Nat.add_0_r.
    split; [reflexivity|]. split; [reflexivity | repeat split].
Qed.

Lemma dispatch_rejects_missing_profile_witness :
  find_command "itwt_setup" =
    Some (mk_cmd "itwt_setup" h_itwt_setup 1 "<profile> <active|idle>"
                 "Setup an iTWT session with parameters as per selected iTWT profile") /\
  Z.of_nat (List.length ["itwt_setup"]) - 1
    < cmd_arg_count
        (mk_cmd "itwt_setup" h_itwt_setup 1 "<profile> <active|idle>"
                "Setup an iTWT session with parameters as per selected iTWT profile") /\
  nth_error ["itwt_setup"] 1 = None /\
  dispatch (mk_cmd "itwt_setup" h_itwt_setup 1 "<profile> <active|idle>"
                   "Setup an iTWT session with parameters as per selected iTWT profile")
           15 ["itwt_setup"] (world0 true 0 never_associates 0)
    = (Done (-1), world0 true 0 never_associates 0) /\
  (forall argc args,
     argc < cmd_arg_count
              (mk_cmd "itwt_setup" h_itwt_setup 1 "<profile> <active|idle>"
                      "Setup an iTWT session with parameters as per selected iTWT profile") ->
     exists w',
       itwt_setup 15 argc args (world0 true 0 never_associates 0) = (Done (-1), w') /\
       trace w' = trace (world0 true 0 never_associates 0) ++
         [Call_printf
            "Insufficient number of arguments. Command format: itwt_setup <profile>\n" []] /\
       count is_connect (trace w') = count is_connect (trace (world0 true 0 never_associates 0)) /\
       count is_disconnect (trace w')
         = count is_disconnect (trace (world0 true 0 never_associates 0)) /\
       unchanged_but_trace (world0 true 0 never_associates 0) w').
Proof.
  split; [reflexivity|]. split; [simpl; lia|].
  apply (dispatch_rejects_missing_profile
           (mk_cmd "itwt_setup" h_itwt_setup 1 "<profile> <active|idle>"
                   "Setup an iTWT session with parameters as per selected iTWT profile")
           15 ["itwt_setup"] (world0 true 0 never_associates 0));
    [reflexivity | simpl; lia].
Defined.

(** ** itwt_teardown *)

(** C5. Every invocation of [itwt_teardown] issues exactly one teardown
    request to the driver, on the station interface, with negotiation type 0,
    flow id 0, broadcast TWT id 0 and the teardown-all flag cleared, whatever
    the connection parameters and the association state are; it makes no
    other call to the wireless services, and it returns the code of the
    request as it is (the same 32-bit value, non-zero when the request
    failed). *)
Theorem itwt_teardown_single_request (argc : Z) (argv : list string) (w : world) :
  cy_rslt_wf (teardown_outcome w) ->
  exists code w' evs,
    itwt_teardown argc argv w = (Done code, w') /\
    trace w' = trace w ++ evs /\
    evs = Call_twt_teardown CY_WCM_INTERFACE_TYPE_STA (mk_teardown_params 0 0 0 0)
                            (teardown_outcome w)
          :: (if teardown_outcome w =? CY_RSLT_SUCCESS then []
              else [Call_printf ("TWT session teardown failed! Error code: 0x%08"
                                 ++ PRIx32 ++ "\n")%string
                                [ArgX32 (teardown_outcome w)]]) /\
    code = to_int (teardown_outcome w) /\
    to_uint32 code = teardown_outcome w /\
    (teardown_outcome w <> CY_RSLT_SUCCESS -> code <> 0) /\
    conn_params w' = conn_params w /\ ap_connected w' = ap_connected w.
Proof.
  intros Hwf.
  assert (Hnz : teardown_outcome w <> CY_RSLT_SUCCESS -> to_int (teardown_outcome w) <> 0).
  { intros Hne F. apply (to_int_zero_iff _ Hwf) in F. exact (Hne F). }
  pose proof (to_uint32_to_int _ Hwf) as Hrt.
  unfold itwt_teardown, bind, whd_wifi_twt_teardown, TWT_CTRL_NEGO_TYPE_0.
  destruct (teardown_outcome w =? CY_RSLT_SUCCESS) eqn:E; cbn [negb];
    unfold printf, ret;
    eexists _, _, _; (split; [reflexivity|]);
    (split; [cbn [trace emit]; rewrite <- ?app_assoc; reflexivity|]);
    repeat split; assumption.
Qed.

Lemma itwt_teardown_single_request_witness :
  cy_rslt_wf (teardown_outcome (world0 false 0 never_associates 33557315)) /\
  exists code w' evs,
    itwt_teardown 1 ["itwt_teardown"] (world0 false 0 never_associates 33557315)
      = (Done code, w') /\
    trace w' = trace (world0 false 0 never_associates 33557315) ++ evs /\
    evs = Call_twt_teardown CY_WCM_INTERFACE_TYPE_STA (mk_teardown_params 0 0 0 0)
                            (teardown_outcome (world0 false 0 never_associates 33557315))
          :: (if teardown_outcome (world0 false 0 never_associates 33557315)
                 =? CY_RSLT_SUCCESS then []
              else [Call_printf ("TWT session teardown failed! Error code: 0x%08"
                                 ++ PRIx32 ++ "\n")%string
                                [ArgX32 (teardown_outcome
                                           (world0 false 0 never_associates 33557315))]]) /\
    code = to_int (teardown_outcome (world0 false 0 never_associates 33557315)) /\
    to_uint32 code = teardown_outcome (world0 false 0 never_associates 33557315) /\
    (teardown_outcome (world0 false 0 never_associates 33557315) <> CY_RSLT_SUCCESS ->
     code <> 0) /\
    conn_params w' = conn_params (world0 false 0 never_associates 33557315) /\
    ap_connected w' = ap_connected (world0 false 0 never_associates 33557315).
Proof.
  split; [unfold cy_rslt_wf; simpl; lia|].
  apply (itwt_teardown_single_request 1 ["itwt_teardown"]
           (world0 false 0 never_associates 33557315)).
  unfold cy_rslt_wf; simpl; lia.
Defined.

Example itwt_teardown_without_session :
  result_of (itwt_teardown 1 ["itwt_teardown"]) (world0 false 0 never_associates 33557315)
    = Done 33557315 /\
  events_of (itwt_teardown 1 ["itwt_teardown"]) (world0 false 0 never_associates 33557315)
    = [Call_twt_teardown CY_WCM_INTERFACE_TYPE_STA (mk_teardown_params 0 0 0 0) 33557315;
       Call_printf "TWT session teardown failed! Error code: 0x%08x\n" [ArgX32 33557315]].
Proof. split; reflexivity. Qed.

(** A code with its top bit set comes back as the negative [int] of the same
    32 bits. *)
Example itwt_teardown_high_code :
  result_of (itwt_teardown 1 ["itwt_teardown"]) (world0 true 0 never_associates 4294967295)
    = Done (-1) /\ to_uint32 (-1) = 4294967295.
Proof. split; reflexivity. Qed.

(** ** wdt_handler and the timer of console_task *)

Lemma wdt_handler_run (arg : Z) (w : world) :
  wdt_handler arg w = (Done tt, emit (Call_watchdog_ConfigureTime 5) w).
Proof. reflexivity. Qed.

Lemma with_trace_same (w : world) :
  mk_world (conn_params w) (wdt_timer_t w) (ap_connected w) (disconnect_outcome w)
           (associate_outcomes w) (teardown_outcome w) (library_outcome w) (trace w) = w.
Proof. destruct w; reflexivity. Qed.

Lemma timer_expiries_run (n : nat) (w : world) :
  timer_cb (wdt_timer_t w) = Some cb_wdt_handler ->
  (exists ms, timer_period (wdt_timer_t w) = Some ms) ->
  timer_expiries n w =
  (Done tt,
   mk_world (conn_params w) (wdt_timer_t w) (ap_connected w) (disconnect_outcome w)
            (associate_outcomes w) (teardown_outcome w) (library_outcome w)
            (trace w ++ repeat (Call_watchdog_ConfigureTime 5) n)).
Proof.
  revert w. induction n as [|n IH]; intros w Hcb [ms Hp].
  - cbn [timer_expiries repeat]. rewrite app_nil_r, with_trace_same. reflexivity.
  - cbn [timer_expiries]. unfold bind at 1. unfold timer_expiry. rewrite Hcb, Hp.
    cbn [run_callback]. rewrite wdt_handler_run.
    rewrite IH; [|exact Hcb | exists ms; exact Hp].
    destruct w. eval_world. cbn [repeat]. rewrite <- app_assoc. reflexivity.
Qed.

(** C8. On every expiry of the periodic timer armed with the period
    [WDT_TIMEOUT_MS] = 4000 ms, the handler makes one call to the watchdog,
    with the margin 5, and nothing else: after any number [n] of expiries the
    trace has grown by [n] such calls, and the connection parameters, the
    association state and every other component of the world are the same.
    The handler does this for every argument and in every world, so that what
    it does depends on no connection data. *)
Theorem wdt_handler_only_extends_watchdog (n : nat) (w : world) :
  wdt_timer_t w = wdt_timer_armed ->
  exists w',
    timer_expiries n w = (Done tt, w') /\
    trace w' = trace w ++ repeat (Call_watchdog_ConfigureTime 5) n /\
    unchanged_but_trace w w' /\
    timer_period (wdt_timer_t w') = Some 4000 /\
    (forall arg v, exists v',
        wdt_handler arg v = (Done tt, v') /\
        trace v' = trace v ++ [Call_watchdog_ConfigureTime 5] /\
        unchanged_but_trace v v').
Proof.
  intros Ht. rewrite timer_expiries_run.
  - eexists. split; [reflexivity|]. split; [reflexivity|].
    split; [repeat split|]. split; [cbn [wdt_timer_t]; rewrite Ht; reflexivity|].
    intros arg v. rewrite wdt_handler_run. eexists. split; [reflexivity|].
    split; [reflexivity | repeat split].
  - rewrite Ht. reflexivity.
  - rewrite Ht. eexists. reflexivity.
Qed.

Lemma idle_loop_never_returns (fuel : nat) (w : world) :
  idle_loop fuel w =
  (OutOfFuel,
   mk_world (conn_params w) (wdt_timer_t w) (ap_connected w) (disconnect_outcome w)
            (associate_outcomes w) (teardown_outcome w) (library_outcome w)
            (trace w ++ repeat (Call_delay_milliseconds 500) fuel)).
Proof.
  revert w. induction fuel as [|fuel IH]; intros w.
  - cbn [idle_loop repeat]. rewrite app_nil_r, with_trace_same. reflexivity.
  - cbn [idle_loop]. unfold bind, cy_rtos_delay_milliseconds. rewrite IH.
    destruct w. eval_world. cbn [repeat]. rewrite <- app_assoc. reflexivity.
Qed.

Lemma command_console_add_command_frame (w : world) :
  exists r w',
    command_console_add_command w = (Done r, w') /\
    wdt_timer_t w' = wdt_timer_t w /\ conn_params w' = conn_params w /\
    ap_connected w' = ap_connected w.
Proof.
  destruct w as [cp tm ac dc ao td lo tr].
  unfold command_console_add_command.
  cbv [bind ret printf library_call emit conn_params wdt_timer_t ap_connected
       disconnect_outcome associate_outcomes teardown_outcome library_outcome trace].
  destruct (lo "cy_command_console_init" =? CY_RSLT_SUCCESS); cbv [negb];
    [|eexists _, _; repeat split].
  destruct (lo "wifi_utility_init" =? CY_RSLT_SUCCESS); cbv [negb];
    [|eexists _, _; repeat split].
  destruct (lo "cy_command_console_add_table" =? CY_RSLT_SUCCESS); cbv [negb];
    eexists _, _; repeat split.
Qed.

(** [console_task] registers [wdt_handler] as a periodic timer of period
    [WDT_TIMEOUT_MS] and then stays in its idle loop: it never returns. *)
Lemma console_task_arms_timer (fuel : nat) (arg : Z) (w : world) :
  (15 <= fuel)%nat -> library_outcome w "cy_wcm_init" = CY_RSLT_SUCCESS ->
  exists w', console_task fuel arg w = (OutOfFuel, w') /\ wdt_timer_t w' = wdt_timer_armed.
Proof.
  intros Hfuel Hinit.
  destruct (run_shape_exists (associate_outcomes w)) as (k & ok & Hshape).
  unfold console_task. unfold bind at 1. unfold library_call at 1.
  rewrite Hinit. cbv [CY_RSLT_SUCCESS Z.eqb negb].
  unfold bind at 1. unfold printf at 1. unfold bind at 1.
  rewrite (ConnectWifi_run fuel CY_WCM_ITWT_PROFILE_NONE
             (emit (Call_printf "Wi-Fi Connection Manager initialized.\n" [])
                   (emit (Call_library "cy_wcm_init" 0) w)) k ok Hfuel Hshape).
  unfold bind at 1.
  destruct (command_console_add_command_frame
              (ConnectWifi_world CY_WCM_ITWT_PROFILE_NONE k ok
                 (emit (Call_printf "Wi-Fi Connection Manager initialized.\n" [])
                       (emit (Call_library "cy_wcm_init" 0) w))))
    as (r & w1 & -> & Ht & _).
  unfold bind, cy_rtos_init_timer, cy_rtos_start_timer, thread_ap_watchdog_ConfigureTime.
  rewrite idle_loop_never_returns. eexists. split; reflexivity.
Qed.

Lemma wdt_handler_only_extends_watchdog_witness :
  wdt_timer_t (snd (console_task 15 0 (world0 false 0 (associates_at 0 16885952) 0)))
    = wdt_timer_armed /\
  exists w',
    timer_expiries 3 (snd (console_task 15 0 (world0 false 0 (associates_at 0 16885952) 0)))
      = (Done tt, w') /\
    trace w' =
      trace (snd (console_task 15 0 (world0 false 0 (associates_at 0 16885952) 0)))
      ++ repeat (Call_watchdog_ConfigureTime 5) 3 /\
    unchanged_but_trace
      (snd (console_task 15 0 (world0 false 0 (associates_at 0 16885952) 0))) w' /\
    timer_period (wdt_timer_t w') = Some 4000 /\
    (forall arg v, exists v',
        wdt_handler arg v = (Done tt, v') /\
        trace v' = trace v ++ [Call_watchdog_ConfigureTime 5] /\
        unchanged_but_trace v v').
Proof.
  split; [vm_compute; reflexivity|].
  apply (wdt_handler_only_extends_watchdog 3
           (snd (console_task 15 0 (world0 false 0 (associates_at 0 16885952) 0)))).
  vm_compute; reflexivity.
Defined.

(** * Further properties *)

(** ** ConnectWifi: what every run looks like *)

Lemma ConnectWifi_total fuel profile w :
  (15 <= fuel)%nat ->
  exists k ok,
    run_shape (associate_outcomes w) k ok /\
    ConnectWifi fuel profile w = (Done (loop_result ok), ConnectWifi_world profile k ok w).
Proof.
  intros Hfuel. destruct (run_shape_exists (associate_outcomes w)) as (k & ok & Hshape).
  exists k, ok. split; [exact Hshape | exact (ConnectWifi_run fuel profile w k ok Hfuel Hshape)].
Qed.

Lemma connect_params_of_app (a b : list event) :
  connect_params_of (a ++ b) = connect_params_of a ++ connect_params_of b.
Proof.
  induction a as [|e a IH]; [reflexivity|].
  destruct e; cbn [app connect_params_of]; rewrite IH; reflexivity.
Qed.

Lemma delay_total_app (a b : list event) :
  delay_total (a ++ b) = delay_total a + delay_total b.
Proof.
  induction a as [|e a IH]; [reflexivity|].
  destruct e; cbn [app delay_total]; rewrite IH; lia.
Qed.

Lemma retry_blocks_observed profile (l : list (cy_rslt_t * Z)) :
  connect_params_of (flat_map (retry_block profile) l)
    = repeat (params_for profile) (List.length l) /\
  delay_total (flat_map (retry_block profile) l) = 500 * Z.of_nat (List.length l) /\
  forallb (fun e => is_printf e || is_connect e || is_delay e)
          (flat_map (retry_block profile) l) = true /\
  count (is_message retry_message) (flat_map (retry_block profile) l) = List.length l /\
  count (is_message exhausted_message) (flat_map (retry_block profile) l) = 0%nat.
Proof.
  induction l as [|o l (IH1 & IH2 & IH3 & IH4 & IH5)].
  - repeat split.
  - cbn [flat_map]. rewrite connect_params_of_app, delay_total_app, forallb_app, !count_app.
    rewrite IH1, IH2, IH3, IH4, IH5. cbn [List.length repeat].
    repeat split. cbn [retry_block attempt_events app delay_total]. lia.
Qed.

Lemma final_block_observed profile ok o :
  connect_params_of (final_block profile ok o) = [params_for profile] /\
  delay_total (final_block profile ok o) = 500 /\
  forallb (fun e => is_printf e || is_connect e || is_delay e)
          (final_block profile ok o) = true /\
  count (is_message retry_message) (final_block profile ok o) = 0%nat /\
  count (is_message exhausted_message) (final_block profile ok o)
    = (if ok then 0%nat else 1%nat).
Proof. destruct ok; repeat split. Qed.

Lemma ConnectWifi_events_observed profile f k ok :
  connect_params_of (ConnectWifi_events profile f k ok)
    = repeat (params_for profile) (S k) /\
  delay_total (ConnectWifi_events profile f k ok) = 500 * Z.of_nat (S k) /\
  forallb (fun e => is_printf e || is_connect e || is_delay e)
          (ConnectWifi_events profile f k ok) = true /\
  count (is_message retry_message) (ConnectWifi_events profile f k ok) = k /\
  count (is_message exhausted_message) (ConnectWifi_events profile f k ok)
    = (if ok then 0%nat else 1%nat).
Proof.
  unfold ConnectWifi_events, loop_events.
  destruct (retry_blocks_observed profile (map f (seq 0 k))) as (R1 & R2 & R3 & R4 & R5).
  destruct (final_block_observed profile ok (f k)) as (F1 & F2 & F3 & F4 & F5).
  rewrite length_map, length_seq in R1, R2, R4.
  change (?e :: ?a ++ ?b) with ([e] ++ a ++ b).
  rewrite !connect_params_of_app, !delay_total_app, !forallb_app, !count_app.
  rewrite R1, R2, R3, R4, R5, F1, F2, F3, F4, F5.
  repeat split.
  - cbn [connect_params_of app]. change [params_for profile] with (repeat (params_for profile) 1).
    rewrite <- repeat_app. f_equal. lia.
  - cbn [delay_total]. lia.
  - cbn. lia.
Qed.

(** X1. Every associate call of a run of [ConnectWifi] is handed the same
    parameters: the compile-time SSID, key, security and band, and the
    requested profile; the global [conn_params] holds them afterwards,
    whatever it held before. *)
Theorem ConnectWifi_same_parameters_every_attempt
    (fuel : nat) (profile : cy_wcm_itwt_profile_t) (w : world) :
  (15 <= fuel)%nat ->
  exists r w' evs,
    ConnectWifi fuel profile w = (Done r, w') /\
    trace w' = trace w ++ evs /\
    List.length (connect_params_of evs) = count is_connect evs /\
    (forall p, In p (connect_params_of evs) \/ p = conn_params w' ->
       SSID (ap_credentials p) = WIFI_SSID /\
       password (ap_credentials p) = WIFI_KEY /\
       security (ap_credentials p) = CY_WCM_SECURITY_WPA2_AES_PSK /\
       band p = CY_WCM_WIFI_BAND_ANY /\
       itwt_profile p = profile).
Proof.
  intros Hfuel. destruct (ConnectWifi_total fuel profile w Hfuel) as (k & ok & _ & Hrun).
  exists (loop_result ok), (ConnectWifi_world profile k ok w),
         (ConnectWifi_events profile (associate_outcomes w) k ok).
  destruct (ConnectWifi_events_observed profile (associate_outcomes w) k ok) as (Hp & _).
  destruct (count_ConnectWifi_events profile (associate_outcomes w) k ok) as (Hc & _).
  split; [exact Hrun|]. split; [reflexivity|].
  split; [rewrite Hp, Hc, repeat_length; reflexivity|].
  intros p [Hin | ->].
  - rewrite Hp in Hin. apply repeat_spec in Hin. subst p. repeat split.
  - repeat split.
Qed.

Lemma ConnectWifi_same_parameters_every_attempt_witness :
  (15 <= 15)%nat /\
  exists r w' evs,
    ConnectWifi 15 CY_WCM_ITWT_PROFILE_IDLE (world0 true 0 (associates_at 3 16885952) 0)
      = (Done r, w') /\
    trace w' = trace (world0 true 0 (associates_at 3 16885952) 0) ++ evs /\
    List.length (connect_params_of evs) = count is_connect evs /\
    (forall p, In p (connect_params_of evs) \/ p = conn_params w' ->
       SSID (ap_credentials p) = WIFI_SSID /\
       password (ap_credentials p) = WIFI_KEY /\
       security (ap_credentials p) = CY_WCM_SECURITY_WPA2_AES_PSK /\
       band p = CY_WCM_WIFI_BAND_ANY /\
       itwt_profile p = CY_WCM_ITWT_PROFILE_IDLE).
Proof.
  split; [lia|].
  apply (ConnectWifi_same_parameters_every_attempt 15 CY_WCM_ITWT_PROFILE_IDLE
           (world0 true 0 (associates_at 3 16885952) 0)).
  lia.
Defined.

(** X2. A run of [ConnectWifi] spends 500 ms in delays per associate call: at
    least 500 ms and at most 15 * 500 = 7500 ms in all. *)
Theorem ConnectWifi_delay_budget
    (fuel : nat) (profile : cy_wcm_itwt_profile_t) (w : world) :
  (15 <= fuel)%nat ->
  exists r w' evs,
    ConnectWifi fuel profile w = (Done r, w') /\
    trace w' = trace w ++ evs /\
    delay_total evs = 500 * Z.of_nat (count is_connect evs) /\
    500 <= delay_total evs <= 500 * MAX_WIFI_CONN_RETRIES /\
    (r = CY_RSLT_ERROR -> delay_total evs = 7500).
Proof.
  intros Hfuel. destruct (ConnectWifi_total fuel profile w Hfuel) as (k & ok & Hshape & Hrun).
  exists (loop_result ok), (ConnectWifi_world profile k ok w),
         (ConnectWifi_events profile (associate_outcomes w) k ok).
  destruct (ConnectWifi_events_observed profile (associate_outcomes w) k ok) as (_ & Hd & _).
  destruct (count_ConnectWifi_events profile (associate_outcomes w) k ok) as (Hc & _).
  destruct Hshape as (Hk & _ & Hlast).
  split; [exact Hrun|]. split; [reflexivity|]. rewrite Hd, Hc.
  split; [reflexivity|]. unfold MAX_WIFI_CONN_RETRIES. split; [lia|].
  destruct ok; [intros F; symmetry in F; exfalso; exact (CY_RSLT_ERROR_not_success F)|].
  intros _. destruct Hlast as [-> _]. reflexivity.
Qed.

Lemma ConnectWifi_delay_budget_witness :
  (15 <= 15)%nat /\
  exists r w' evs,
    ConnectWifi 15 CY_WCM_ITWT_PROFILE_NONE (world0 false 0 never_associates 0)
      = (Done r, w') /\
    trace w' = trace (world0 false 0 never_associates 0) ++ evs /\
    delay_total evs = 500 * Z.of_nat (count is_connect evs) /\
    500 <= delay_total evs <= 500 * MAX_WIFI_CONN_RETRIES /\
    (r = CY_RSLT_ERROR -> delay_total evs = 7500).
Proof.
  split; [lia|].
  apply (ConnectWifi_delay_budget 15 CY_WCM_ITWT_PROFILE_NONE
           (world0 false 0 never_associates 0)).
  lia.
Defined.

(** X3. [ConnectWifi] only prints, associates and waits: it makes no
    disconnection, teardown, watchdog, timer or library call, and it leaves
    the timer and the outcomes of the other services as they were. *)
Theorem ConnectWifi_only_prints_associates_and_waits
    (fuel : nat) (profile : cy_wcm_itwt_profile_t) (w : world) :
  (15 <= fuel)%nat ->
  exists r w' evs,
    ConnectWifi fuel profile w = (Done r, w') /\
    trace w' = trace w ++ evs /\
    forallb (fun e => is_printf e || is_connect e || is_delay e) evs = true /\
    wdt_timer_t w' = wdt_timer_t w /\
    disconnect_outcome w' = disconnect_outcome w /\
    teardown_outcome w' = teardown_outcome w /\
    library_outcome w' = library_outcome w.
Proof.
  intros Hfuel. destruct (ConnectWifi_total fuel profile w Hfuel) as (k & ok & _ & Hrun).
  exists (loop_result ok), (ConnectWifi_world profile k ok w),
         (ConnectWifi_events profile (associate_outcomes w) k ok).
  destruct (ConnectWifi_events_observed profile (associate_outcomes w) k ok)
    as (_ & _ & Hall & _).
  split; [exact Hrun|]. split; [reflexivity|]. split; [exact Hall|]. repeat split.
Qed.

Lemma ConnectWifi_only_prints_associates_and_waits_witness :
  (15 <= 16)%nat /\
  exists r w' evs,
    ConnectWifi 16 CY_WCM_ITWT_PROFILE_ACTIVE (world0 true 7 (associates_at 5 1) 9)
      = (Done r, w') /\
    trace w' = trace (world0 true 7 (associates_at 5 1) 9) ++ evs /\
    forallb (fun e => is_printf e || is_connect e || is_delay e) evs = true /\
    wdt_timer_t w' = wdt_timer_t (world0 true 7 (associates_at 5 1) 9) /\
    disconnect_outcome w' = disconnect_outcome (world0 true 7 (associates_at 5 1) 9) /\
    teardown_outcome w' = teardown_outcome (world0 true 7 (associates_at 5 1) 9) /\
    library_outcome w' = library_outcome (world0 true 7 (associates_at 5 1) 9).
Proof.
  split; [lia|].
  apply (ConnectWifi_only_prints_associates_and_waits 16 CY_WCM_ITWT_PROFILE_ACTIVE
           (world0 true 7 (associates_at 5 1) 9)).
  lia.
Defined.

(** X4. [ConnectWifi] prints one retry message per failed attempt that is
    retried, that is one less than the number of associate calls, and the
    exhausted-retries message exactly when it returns the error. *)
Theorem ConnectWifi_messages
    (fuel : nat) (profile : cy_wcm_itwt_profile_t) (w : world) :
  (15 <= fuel)%nat ->
  exists r w' evs,
    ConnectWifi fuel profile w = (Done r, w') /\
    trace w' = trace w ++ evs /\
    S (count (is_message retry_message) evs) = count is_connect evs /\
    (r = CY_RSLT_SUCCESS -> count (is_message exhausted_message) evs = 0%nat) /\
    (r = CY_RSLT_ERROR ->
     count (is_message exhausted_message) evs = 1%nat /\
     count (is_message retry_message) evs = 14%nat) /\
    (r = CY_RSLT_SUCCESS \/ r = CY_RSLT_ERROR).
Proof.
  intros Hfuel. destruct (ConnectWifi_total fuel profile w Hfuel) as (k & ok & Hshape & Hrun).
  exists (loop_result ok), (ConnectWifi_world profile k ok w),
         (ConnectWifi_events profile (associate_outcomes w) k ok).
  destruct (ConnectWifi_events_observed profile (associate_outcomes w) k ok)
    as (_ & _ & _ & Hr & He).
  destruct (count_ConnectWifi_events profile (associate_outcomes w) k ok) as (Hc & _).
  destruct Hshape as (_ & _ & Hlast).
  split; [exact Hrun|]. split; [reflexivity|]. rewrite Hr, He, Hc.
  split; [reflexivity|].
  destruct ok; cbn [loop_result].
  - split; [reflexivity|]. split; [|left; reflexivity].
    intros F. symmetry in F. exfalso. exact (CY_RSLT_ERROR_not_success F).
  - split; [intros F; exfalso; exact (CY_RSLT_ERROR_not_success F)|].
    split; [|right; reflexivity]. intros _. destruct Hlast as [-> _]. split; reflexivity.
Qed.

Lemma ConnectWifi_messages_witness :
  (15 <= 15)%nat /\
  exists r w' evs,
    ConnectWifi 15 CY_WCM_ITWT_PROFILE_NONE (world0 false 0 (associates_at 4 1) 0)
      = (Done r, w') /\
    trace w' = trace (world0 false 0 (associates_at 4 1) 0) ++ evs /\
    S (count (is_message retry_message) evs) = count is_connect evs /\
    (r = CY_RSLT_SUCCESS -> count (is_message exhausted_message) evs = 0%nat) /\
    (r = CY_RSLT_ERROR ->
     count (is_message exhausted_message) evs = 1%nat /\
     count (is_message retry_message) evs = 14%nat) /\
    (r = CY_RSLT_SUCCESS \/ r = CY_RSLT_ERROR).
Proof.
  split; [lia|].
  apply (ConnectWifi_messages 15 CY_WCM_ITWT_PROFILE_NONE (world0 false 0 (associates_at 4 1) 0)).
  lia.
Defined.

(** ** itwt_setup: the profile and the returned code *)

Lemma itwt_setup_valid_run fuel argc argv a p w :
  (15 <= fuel)%nat -> 1 <= argc -> nth_error argv 1 = Some a ->
  profile_of_token a = Some p ->
  (ap_connected w = true -> disconnect_outcome w = CY_RSLT_SUCCESS) ->
  exists k ok pre,
    run_shape (associate_outcomes w) k ok /\
    itwt_setup fuel argc argv w =
      (Done (to_int (loop_result ok)),
       ConnectWifi_world p k ok
         (if ap_connected w then after_disconnect w
          else emit (Call_is_connected_to_ap false) w)) /\
    trace (if ap_connected w then after_disconnect w
           else emit (Call_is_connected_to_ap false) w) = trace w ++ pre /\
    connect_params_of pre = [].
Proof.
  intros Hfuel Hargc Harg Hp Hd.
  destruct (run_shape_exists (associate_outcomes w)) as (k & ok & Hshape).
  exists k, ok. destruct (ap_connected w) eqn:Hc.
  - exists (disconnect_events w). split; [exact Hshape|].
    rewrite (itwt_setup_disconnected fuel argc argv w Hargc Hc (Hd eq_refl)).
    rewrite (setup_profile_block_valid fuel argv a p (after_disconnect w) k ok
               Hfuel Harg Hp Hshape).
    repeat split.
  - exists [Call_is_connected_to_ap false]. split; [exact Hshape|].
    rewrite (itwt_setup_not_connected fuel argc argv w Hargc Hc).
    rewrite (setup_profile_block_valid fuel argv a p
               (emit (Call_is_connected_to_ap false) w) k ok Hfuel Harg Hp Hshape).
    repeat split.
Qed.

Lemma itwt_setup_profile_when_disconnected fuel argc argv a p w :
  (15 <= fuel)%nat -> 1 <= argc -> nth_error argv 1 = Some a ->
  profile_of_token a = Some p ->
  (ap_connected w = true -> disconnect_outcome w = CY_RSLT_SUCCESS) ->
  exists code w' evs,
    itwt_setup fuel argc argv w = (Done code, w') /\
    trace w' = trace w ++ evs /\
    (forall q, In q (connect_params_of evs) -> itwt_profile q = p) /\
    connect_params_of evs <> [] /\ itwt_profile (conn_params w') = p.
Proof.
  intros Hfuel Hargc Harg Hp Hok.
  destruct (itwt_setup_valid_run fuel argc argv a p w Hfuel Hargc Harg Hp Hok)
    as (k & ok & pre & _ & Hrun & Hpre & Hnone).
  destruct (ConnectWifi_events_observed p (associate_outcomes w) k ok) as (Hq & _).
  assert (Hf : associate_outcomes
                 (if ap_connected w then after_disconnect w
                  else emit (Call_is_connected_to_ap false) w) = associate_outcomes w).
  { destruct (ap_connected w); reflexivity. }
  exists (to_int (loop_result ok)). eexists.
  exists (pre ++ ConnectWifi_events p (associate_outcomes w) k ok).
  split; [exact Hrun|].
  split; [cbn [trace ConnectWifi_world]; rewrite Hpre, Hf, <- app_assoc; reflexivity|].
  rewrite connect_params_of_app, Hnone, Hq. cbn [app].
  split; [intros q Hin; apply repeat_spec in Hin; subst q; reflexivity|].
  split; [discriminate | reflexivity].
Qed.

(** X6. The token selects the profile: with [idle] every associate call of
    [itwt_setup] carries [CY_WCM_ITWT_PROFILE_IDLE], with [active] it carries
    [CY_WCM_ITWT_PROFILE_ACTIVE]; unless a disconnection failed, at least one
    such call is made and the global [conn_params] ends with that profile. *)
Theorem itwt_setup_profile_of_token
    (fuel : nat) (argc : Z) (argv : list string) (a : string)
    (p : cy_wcm_itwt_profile_t) (w : world) :
  (15 <= fuel)%nat -> 1 <= argc -> nth_error argv 1 = Some a ->
  (a = "idle" /\ p = CY_WCM_ITWT_PROFILE_IDLE) \/
  (a = "active" /\ p = CY_WCM_ITWT_PROFILE_ACTIVE) ->
  exists code w' evs,
    itwt_setup fuel argc argv w = (Done code, w') /\
    trace w' = trace w ++ evs /\
    (forall q, In q (connect_params_of evs) -> itwt_profile q = p) /\
    ((ap_connected w = true -> disconnect_outcome w = CY_RSLT_SUCCESS) ->
     connect_params_of evs <> [] /\ itwt_profile (conn_params w') = p).
Proof.
  intros Hfuel Hargc Harg Htok.
  assert (Hp : profile_of_token a = Some p).
  { destruct Htok as [[-> ->] | [-> ->]]; reflexivity. }
  destruct (Bool.bool_dec (ap_connected w) true) as [Hc | Hc];
    [destruct (Z.eq_dec (disconnect_outcome w) CY_RSLT_SUCCESS) as [Hd | Hd]|].
  - destruct (itwt_setup_profile_when_disconnected fuel argc argv a p w
                Hfuel Hargc Harg Hp (fun _ => Hd))
      as (code & w' & evs & H1 & H2 & H3 & H4).
    exists code, w', evs. repeat split; try assumption; apply H4.
  - rewrite (itwt_setup_disconnect_failed fuel argc argv w Hargc Hc Hd).
    eexists _, _, (disconnect_events w ++ [_]).
    split; [reflexivity|]. split; [cbn; rewrite <- app_assoc; reflexivity|].
    split; [intros q []|]. intros F. exfalso. exact (Hd (F Hc)).
  - destruct (itwt_setup_profile_when_disconnected fuel argc argv a p w
                Hfuel Hargc Harg Hp (fun F => False_ind _ (Hc F)))
      as (code & w' & evs & H1 & H2 & H3 & H4).
    exists code, w', evs. repeat split; try assumption; apply H4.
Qed.

Lemma itwt_setup_profile_of_token_witness :
  (15 <= 15)%nat /\ 1 <= 2 /\ nth_error ["itwt_setup"; "active"] 1 = Some "active" /\
  (("active" = "idle" /\ CY_WCM_ITWT_PROFILE_ACTIVE = CY_WCM_ITWT_PROFILE_IDLE) \/
   ("active" = "active" /\ CY_WCM_ITWT_PROFILE_ACTIVE = CY_WCM_ITWT_PROFILE_ACTIVE)) /\
  exists code w' evs,
    itwt_setup 15 2 ["itwt_setup"; "active"] (world0 true 0 (associates_at 1 16885952) 0)
      = (Done code, w') /\
    trace w' = trace (world0 true 0 (associates_at 1 16885952) 0) ++ evs /\
    (forall q, In q (connect_params_of evs) -> itwt_profile q = CY_WCM_ITWT_PROFILE_ACTIVE) /\
    ((ap_connected (world0 true 0 (associates_at 1 16885952) 0) = true ->
      disconnect_outcome (world0 true 0 (associates_at 1 16885952) 0) = CY_RSLT_SUCCESS) ->
     connect_params_of evs <> [] /\
     itwt_profile (conn_params w') = CY_WCM_ITWT_PROFILE_ACTIVE).
Proof.
  split; [lia|]. split; [lia|]. split; [reflexivity|].
  split; [right; split; reflexivity|].
  apply (itwt_setup_profile_of_token 15 2 ["itwt_setup"; "active"] "active"
           CY_WCM_ITWT_PROFILE_ACTIVE (world0 true 0 (associates_at 1 16885952) 0));
    [lia | lia | reflexivity | right; split; reflexivity].
Defined.

(** X7. With a valid token and no failed disconnection, [itwt_setup] returns 0
    when one of the first 15 associate calls succeeds and -1 when all 15
    fail; it returns nothing else. *)
Theorem itwt_setup_returns_0_iff_associated
    (fuel : nat) (argc : Z) (argv : list string) (a : string) (w : world) :
  (15 <= fuel)%nat -> 1 <= argc -> nth_error argv 1 = Some a ->
  a = "active" \/ a = "idle" ->
  (ap_connected w = true -> disconnect_outcome w = CY_RSLT_SUCCESS) ->
  exists code w',
    itwt_setup fuel argc argv w = (Done code, w') /\
    (code = 0 \/ code = -1) /\
    (code = 0 <->
     exists k, (k < 15)%nat /\ fst (associate_outcomes w k) = CY_RSLT_SUCCESS).
Proof.
  intros Hfuel Hargc Harg Hvalid Hd.
  destruct (profile_of_token_valid a Hvalid) as [p Hp].
  destruct (itwt_setup_valid_run fuel argc argv a p w Hfuel Hargc Harg Hp Hd)
    as (k & ok & pre & Hshape & Hrun & _ & _).
  eexists _, _. split; [exact Hrun|].
  destruct Hshape as (Hk & Hfail & Hlast). destruct ok; cbn [loop_result].
  - split; [left; reflexivity|]. split; [|reflexivity].
    intros _. exists k. split; assumption.
  - rewrite to_int_CY_RSLT_ERROR. split; [right; reflexivity|].
    split; [discriminate|]. intros (j & Hj & Hs). exfalso.
    destruct Hlast as [-> Hl].
    destruct (Nat.eq_dec j 14) as [-> | N]; [exact (Hl Hs) | apply (Hfail j); [lia | exact Hs]].
Qed.

Lemma itwt_setup_returns_0_iff_associated_witness :
  (15 <= 15)%nat /\ 1 <= 2 /\ nth_error ["itwt_setup"; "idle"] 1 = Some "idle" /\
  ("idle" = "active" \/ "idle" = "idle") /\
  (ap_connected (world0 true 0 never_associates 0) = true ->
   disconnect_outcome (world0 true 0 never_associates 0) = CY_RSLT_SUCCESS) /\
  exists code w',
    itwt_setup 15 2 ["itwt_setup"; "idle"] (world0 true 0 never_associates 0)
      = (Done code, w') /\
    (code = 0 \/ code = -1) /\
    (code = 0 <->
     exists k, (k < 15)%nat /\
               fst (associate_outcomes (world0 true 0 never_associates 0) k) = CY_RSLT_SUCCESS).
Proof.
  split; [lia|]. split; [lia|]. split; [reflexivity|]. split; [right; reflexivity|].
  split; [reflexivity|].
  apply (itwt_setup_returns_0_iff_associated 15 2 ["itwt_setup"; "idle"] "idle"
           (world0 true 0 never_associates 0));
    [lia | lia | reflexivity | right; reflexivity | reflexivity].
Defined.

(** ** command_console_add_command *)


(** ** console_task *)

Lemma command_console_add_command_run (w : world) :
  exists r,
    command_console_add_command w =
    (Done r,
     mk_world (conn_params w) (wdt_timer_t w) (ap_connected w) (disconnect_outcome w)
              (associate_outcomes w) (teardown_outcome w) (library_outcome w)
              (trace w ++ registration_events (library_outcome w))).
Proof.
  destruct w as [cp tm ac dc ao td lo tr].
  unfold command_console_add_command, registration_events. eval_library.
  destruct (lo "cy_command_console_init" =? CY_RSLT_SUCCESS); cbv [negb];
    [destruct (lo "wifi_utility_init" =? CY_RSLT_SUCCESS); cbv [negb];
     [destruct (lo "cy_command_console_add_table" =? CY_RSLT_SUCCESS); cbv [negb]|]|];
    eexists; rewrite <- ?app_assoc; reflexivity.
Qed.

Lemma registration_events_classes (lo : string -> cy_rslt_t) :
  count is_connect (registration_events lo) = 0%nat /\
  count is_watchdog (registration_events lo) = 0%nat /\
  (2 <= List.length (registration_events lo))%nat.
Proof.
  unfold registration_events.
  destruct (lo "cy_command_console_init" =? CY_RSLT_SUCCESS); cbv [negb];
    [destruct (lo "wifi_utility_init" =? CY_RSLT_SUCCESS); cbv [negb];
     [destruct (lo "cy_command_console_add_table" =? CY_RSLT_SUCCESS); cbv [negb]|]|];
    repeat split; cbn; lia.
Qed.

Lemma only_connect_events_no_watchdog (l : list event) :
  forallb (fun e => is_printf e || is_connect e || is_delay e) l = true ->
  count is_watchdog l = 0%nat.
Proof.
  induction l as [|e l IH]; [reflexivity|].
  cbn [forallb]. intros H. apply andb_true_iff in H. destruct H as [He Hl].
  change (e :: l) with ([e] ++ l). rewrite count_app, (IH Hl).
  destruct e; try discriminate; reflexivity.
Qed.

(** X10. When the connection manager cannot be initialized, [console_task]
    reports the code and returns at once: it makes no associate call, it
    registers no command, it arms no timer and it never touches the
    watchdog. *)
Theorem console_task_init_failure (fuel : nat) (arg : Z) (w : world) :
  library_outcome w "cy_wcm_init" <> CY_RSLT_SUCCESS ->
  exists w',
    console_task fuel arg w = (Done tt, w') /\
    trace w' = trace w ++
      [Call_library "cy_wcm_init" (library_outcome w "cy_wcm_init");
       Call_printf ("Wi-Fi Connection Manager initialization failed! Error code: 0x%08"
                    ++ PRIx32 ++ "\n")%string
                   [ArgX32 (library_outcome w "cy_wcm_init")]] /\
    unchanged_but_trace w w'.
Proof.
  intros H. apply Z.eqb_neq in H.
  destruct w as [cp tm ac dc ao td lo tr]. cbn [library_outcome] in H.
  unfold console_task, unchanged_but_trace. eval_library. rewrite H. cbv [negb].
  eexists. split; [reflexivity|]. split; [rewrite <- ?app_assoc; reflexivity | repeat split].
Qed.

Lemma console_task_init_failure_witness :
  library_outcome
    (mk_world conn_params_zero timer_uninit false 0 never_associates 0 (fun _ => 3) [])
    "cy_wcm_init" <> CY_RSLT_SUCCESS /\
  exists w',
    console_task 15 0
      (mk_world conn_params_zero timer_uninit false 0 never_associates 0 (fun _ => 3) [])
      = (Done tt, w') /\
    trace w' =
      trace (mk_world conn_params_zero timer_uninit false 0 never_associates 0 (fun _ => 3) [])
      ++ [Call_library "cy_wcm_init"
            (library_outcome
               (mk_world conn_params_zero timer_uninit false 0 never_associates 0
                         (fun _ => 3) []) "cy_wcm_init");
          Call_printf ("Wi-Fi Connection Manager initialization failed! Error code: 0x%08"
                       ++ PRIx32 ++ "\n")%string
                      [ArgX32 (library_outcome
                                 (mk_world conn_params_zero timer_uninit false 0
                                           never_associates 0 (fun _ => 3) [])
                                 "cy_wcm_init")]] /\
    unchanged_but_trace
      (mk_world conn_params_zero timer_uninit false 0 never_associates 0 (fun _ => 3) []) w'.
Proof.
  split; [discriminate|].
  apply (console_task_init_failure 15 0
           (mk_world conn_params_zero timer_uninit false 0 never_associates 0 (fun _ => 3) [])).
  discriminate.
Defined.

(** X11. Once the connection manager is initialized, [console_task] never
    returns, and it arms the watchdog timer whether or not the first
    connection and the registration of the commands succeed.  Its trace is:
    the initialization, the calls of a run of [ConnectWifi] with the profile
    [CY_WCM_ITWT_PROFILE_NONE], the calls of the run of
    [command_console_add_command] that follows it (at least the
    initialization of the console), then the registration of [wdt_handler] as
    a periodic timer, its start with the period 4000 ms, one watchdog call
    with margin 5, and from then on 500 ms delays only. *)
Theorem console_task_trace (fuel : nat) (arg : Z) (w : world) :
  (15 <= fuel)%nat -> library_outcome w "cy_wcm_init" = CY_RSLT_SUCCESS ->
  exists w' v1 v2 rc rr (connect registration : list event),
    console_task fuel arg w = (OutOfFuel, w') /\
    wdt_timer_t w' = wdt_timer_armed /\
    ConnectWifi fuel CY_WCM_ITWT_PROFILE_NONE
      (emit (Call_printf "Wi-Fi Connection Manager initialized.\n" [])
            (emit (Call_library "cy_wcm_init" 0) w)) = (Done rc, v1) /\
    trace v1 = (trace w ++
                [Call_library "cy_wcm_init" 0;
                 Call_printf "Wi-Fi Connection Manager initialized.\n" []]) ++ connect /\
    command_console_add_command v1 = (Done rr, v2) /\
    trace v2 = trace v1 ++ registration /\
    registration = registration_events (library_outcome w) /\
    trace w' = trace w ++
      [Call_library "cy_wcm_init" 0;
       Call_printf "Wi-Fi Connection Manager initialized.\n" []] ++
      connect ++ registration ++
      [Call_init_timer CY_TIMER_TYPE_PERIODIC cb_wdt_handler 0;
       Call_start_timer WDT_TIMEOUT_MS;
       Call_watchdog_ConfigureTime 5] ++
      repeat (Call_delay_milliseconds 500) fuel /\
    (1 <= count is_connect connect <= 15)%nat /\
    (forall q, In q (connect_params_of connect) ->
               itwt_profile q = CY_WCM_ITWT_PROFILE_NONE) /\
    forallb (fun e => is_printf e || is_connect e || is_delay e) connect = true /\
    count (is_library "cy_command_console_init") registration = 1%nat /\
    count is_connect registration = 0%nat /\
    count is_watchdog (connect ++ registration) = 0%nat.
Proof.
  intros Hfuel Hinit.
  pose (w0 := emit (Call_printf "Wi-Fi Connection Manager initialized.\n" [])
                   (emit (Call_library "cy_wcm_init" 0) w)).
  destruct (ConnectWifi_total fuel CY_WCM_ITWT_PROFILE_NONE w0 Hfuel) as (k & ok & Hshape & Hrun).
  destruct (command_console_add_command_run
              (ConnectWifi_world CY_WCM_ITWT_PROFILE_NONE k ok w0)) as (rr & Hreg).
  cbn [conn_params wdt_timer_t ap_connected disconnect_outcome associate_outcomes
       teardown_outcome library_outcome trace ConnectWifi_world] in Hreg.
  destruct (ConnectWifi_events_observed CY_WCM_ITWT_PROFILE_NONE (associate_outcomes w) k ok)
    as (Hp & _ & Hall & _).
  destruct (count_ConnectWifi_events CY_WCM_ITWT_PROFILE_NONE (associate_outcomes w) k ok)
    as (Hc & _).
  destruct (registration_events_classes (library_outcome w)) as (G1 & G2 & _).
  eexists; exists (ConnectWifi_world CY_WCM_ITWT_PROFILE_NONE k ok w0); eexists.
  exists (loop_result ok), rr,
         (ConnectWifi_events CY_WCM_ITWT_PROFILE_NONE (associate_outcomes w) k ok),
         (registration_events (library_outcome w)).
  split.
  { unfold console_task. unfold bind at 1. unfold library_call at 1.
    rewrite Hinit. cbv [CY_RSLT_SUCCESS Z.eqb negb].
    unfold bind at 1. unfold printf at 1. unfold bind at 1.
    fold w0. rewrite Hrun. unfold bind at 1. rewrite Hreg.
    unfold bind, cy_rtos_init_timer, cy_rtos_start_timer, thread_ap_watchdog_ConfigureTime.
    rewrite idle_loop_never_returns. eval_world. reflexivity. }
  split; [reflexivity|].
  split; [exact Hrun|].
  split; [subst w0; cbn [trace ConnectWifi_world emit associate_outcomes];
          rewrite <- ?app_assoc; reflexivity|].
  split; [exact Hreg|].
  split; [subst w0; reflexivity|].
  split; [reflexivity|].
  split; [subst w0; cbn [trace emit associate_outcomes library_outcome];
          rewrite <- ?app_assoc; reflexivity|].
  destruct Hshape as (Hk & _).
  split; [rewrite Hc; lia|].
  split; [intros q Hin; rewrite Hp in Hin; apply repeat_spec in Hin; subst q; reflexivity|].
  split; [exact Hall|].
  split.
  { unfold registration_events.
    destruct (library_outcome w "cy_command_console_init" =? CY_RSLT_SUCCESS); cbv [negb];
      [destruct (library_outcome w "wifi_utility_init" =? CY_RSLT_SUCCESS); cbv [negb];
       [destruct (library_outcome w "cy_command_console_add_table" =? CY_RSLT_SUCCESS);
        cbv [negb]|]|]; reflexivity. }
  split; [exact G1|].
  rewrite count_app, G2, (only_connect_events_no_watchdog _ Hall). reflexivity.
Qed.

Lemma console_task_trace_witness :
  (15 <= 15)%nat /\
  library_outcome (world0 false 0 never_associates 0) "cy_wcm_init" = CY_RSLT_SUCCESS /\
  exists w' v1 v2 rc rr (connect registration : list event),
    console_task 15 0 (world0 false 0 never_associates 0) = (OutOfFuel, w') /\
    wdt_timer_t w' = wdt_timer_armed /\
    ConnectWifi 15 CY_WCM_ITWT_PROFILE_NONE
      (emit (Call_printf "Wi-Fi Connection Manager initialized.\n" [])
            (emit (Call_library "cy_wcm_init" 0) (world0 false 0 never_associates 0)))
      = (Done rc, v1) /\
    trace v1 = (trace (world0 false 0 never_associates 0) ++
                [Call_library "cy_wcm_init" 0;
                 Call_printf "Wi-Fi Connection Manager initialized.\n" []]) ++ connect /\
    command_console_add_command v1 = (Done rr, v2) /\
    trace v2 = trace v1 ++ registration /\
    registration = registration_events (library_outcome (world0 false 0 never_associates 0)) /\
    trace w' = trace (world0 false 0 never_associates 0) ++
      [Call_library "cy_wcm_init" 0;
       Call_printf "Wi-Fi Connection Manager initialized.\n" []] ++
      connect ++ registration ++
      [Call_init_timer CY_TIMER_TYPE_PERIODIC cb_wdt_handler 0;
       Call_start_timer WDT_TIMEOUT_MS;
       Call_watchdog_ConfigureTime 5] ++
      repeat (Call_delay_milliseconds 500) 15 /\
    (1 <= count is_connect connect <= 15)%nat /\
    (forall q, In q (connect_params_of connect) ->
               itwt_profile q = CY_WCM_ITWT_PROFILE_NONE) /\
    forallb (fun e => is_printf e || is_connect e || is_delay e) connect = true /\
    count (is_library "cy_command_console_init") registration = 1%nat /\
    count is_connect registration = 0%nat /\
    count is_watchdog (connect ++ registration) = 0%nat.
Proof.
  split; [lia|]. split; [reflexivity|].
  apply (console_task_trace 15 0 (world0 false 0 never_associates 0)); [lia | reflexivity].
Defined.

(** ** set_cpu_clock_cp and main *)

(** X12. [set_cpu_clock_cp] sets the frequency only when the clock was obtained:
    if [cyhal_clock_get] fails, its code is returned and
    [cyhal_clock_set_frequency] is not called; otherwise the code of
    [cyhal_clock_set_frequency] is returned. *)
Theorem set_cpu_clock_cp_result (freq : Z) (w : world) :
  exists r w' evs,
    set_cpu_clock_cp freq w = (Done r, w') /\
    trace w' = trace w ++ evs /\
    unchanged_but_trace w w' /\
    (library_outcome w "cyhal_clock_get" <> CY_RSLT_SUCCESS ->
     r = library_outcome w "cyhal_clock_get" /\
     evs = [Call_library "cyhal_clock_get" r]) /\
    (library_outcome w "cyhal_clock_get" = CY_RSLT_SUCCESS ->
     r = library_outcome w "cyhal_clock_set_frequency" /\
     evs = [Call_library "cyhal_clock_get" 0;
            Call_library "cyhal_clock_set_frequency" r]).
Proof.
  destruct w as [cp tm ac dc ao td lo tr].
  unfold set_cpu_clock_cp, unchanged_but_trace. eval_library.
  destruct (CY_RSLT_SUCCESS =? lo "cyhal_clock_get") eqn:E.
  - apply Z.eqb_eq in E. eexists _, _, [_; _]. split; [reflexivity|].
    split; [rewrite <- ?app_assoc; reflexivity|]. split; [repeat split|].
    split; [intros F; exfalso; apply F; symmetry; exact E|].
    intros _. rewrite <- E. split; reflexivity.
  - apply Z.eqb_neq in E. eexists _, _, [_]. split; [reflexivity|].
    split; [reflexivity|]. split; [repeat split|].
    split; [intros _; split; reflexivity|]. intros F. exfalso. apply E. symmetry. exact F.
Qed.

Lemma CY_HALT_never_returns (fuel : nat) (w : world) : CY_HALT fuel w = (OutOfFuel, w).
Proof. induction fuel as [|fuel IH]; [reflexivity | exact IH]. Qed.

(** X13. When the board support package cannot be initialized, [main] stops
    there: it never returns, and [cybsp_init] is the only call it has made
    (no interrupt is enabled, nothing is printed, no thread is created). *)
Theorem main_board_init_failure (cfg : build_config) (fuel : nat) (w : world) :
  library_outcome w "cybsp_init" <> CY_RSLT_SUCCESS ->
  exists w',
    main cfg fuel w = (OutOfFuel, w') /\
    trace w' = trace w ++ [Call_library "cybsp_init" (library_outcome w "cybsp_init")] /\
    unchanged_but_trace w w'.
Proof.
  intros H. apply Z.eqb_neq in H.
  destruct w as [cp tm ac dc ao td lo tr]. cbn [library_outcome] in H.
  unfold main. unfold bind at 1. unfold library_call at 1. cbn [library_outcome].
  unfold bind at 1. rewrite H. cbv [negb CY_ASSERT]. rewrite CY_HALT_never_returns.
  eexists. split; [reflexivity|]. split; [reflexivity | repeat split].
Qed.

Lemma main_board_init_failure_witness :
  library_outcome
    (mk_world conn_params_zero timer_uninit false 0 never_associates 0 (fun _ => 1) [])
    "cybsp_init" <> CY_RSLT_SUCCESS /\
  exists w',
    main (mk_build_config None 2 true) 10
      (mk_world conn_params_zero timer_uninit false 0 never_associates 0 (fun _ => 1) [])
      = (OutOfFuel, w') /\
    trace w' =
      trace (mk_world conn_params_zero timer_uninit false 0 never_associates 0 (fun _ => 1) [])
      ++ [Call_library "cybsp_init"
            (library_outcome
               (mk_world conn_params_zero timer_uninit false 0 never_associates 0
                         (fun _ => 1) []) "cybsp_init")] /\
    unchanged_but_trace
      (mk_world conn_params_zero timer_uninit false 0 never_associates 0 (fun _ => 1) []) w'.
Proof.
  split; [discriminate|].
  apply (main_board_init_failure (mk_build_config None 2 true) 10
           (mk_world conn_params_zero timer_uninit false 0 never_associates 0 (fun _ => 1) [])).
  discriminate.
Defined.

(** X14. The code returned by [cy_retarget_io_init] is not looked at: the test
    that follows the call reads the code of the earlier initialization.
    Whenever the board (and, when it is configured, the CPU clock) is
    initialized and the thread is created, [main] prints its banner, creates
    the console thread once and returns 0, whatever [cy_retarget_io_init]
    returned. *)
Theorem main_ignores_retarget_io_result (cfg : build_config) (fuel : nat) (w : world) :
  library_outcome w "cybsp_init" = CY_RSLT_SUCCESS ->
  (forall freq, H1CP_CLOCK_FREQ cfg = Some freq -> 2 <= CYHAL_API_VERSION cfg ->
     library_outcome w "cyhal_clock_get" = CY_RSLT_SUCCESS /\
     library_outcome w "cyhal_clock_set_frequency" = CY_RSLT_SUCCESS) ->
  library_outcome w "cy_rtos_thread_create" = CY_RSLT_SUCCESS ->
  exists w' (pre : list event),
    main cfg fuel w = (Done 0, w') /\
    trace w' = trace w ++ pre ++
      [Call_library "cy_retarget_io_init" (library_outcome w "cy_retarget_io_init");
       Call_printf "\x1b[2J\x1b[;H" [];
       Call_printf main_banner [];
       Call_library "cy_rtos_thread_create" 0] /\
    count (is_library "cy_rtos_thread_create") pre = 0%nat /\
    count (is_library "cy_retarget_io_init") pre = 0%nat /\
    unchanged_but_trace w w'.
Proof.
  intros Hb Hclk Ht.
  destruct w as [cp tm ac dc ao td lo tr]. cbn [library_outcome] in Hb, Hclk, Ht.
  destruct cfg as [f v c]. cbn [H1CP_CLOCK_FREQ CYHAL_API_VERSION COMPONENT_CAT5] in Hclk.
  pose (pre := [Call_library "cybsp_init" 0;
                Call_library "__enable_irq" (lo "__enable_irq")]
               ++ (if c then [Call_library "cyhal_syspm_lock_deepsleep"
                                (lo "cyhal_syspm_lock_deepsleep")] else [])
               ++ (match f with
                   | Some _ => if v >=? 2
                               then [Call_library "cyhal_clock_get" 0;
                                     Call_library "cyhal_clock_set_frequency" 0]
                               else []
                   | None => []
                   end)).
  assert (Hcount : count (is_library "cy_rtos_thread_create") pre = 0%nat /\
                   count (is_library "cy_retarget_io_init") pre = 0%nat).
  { subst pre. destruct c, f as [freq|]; try destruct (v >=? 2); split; reflexivity. }
  exists (mk_world cp tm ac dc ao td lo
            (tr ++ pre ++
             [Call_library "cy_retarget_io_init" (lo "cy_retarget_io_init");
              Call_printf "\x1b[2J\x1b[;H" [];
              Call_printf main_banner [];
              Call_library "cy_rtos_thread_create" 0])), pre.
  split; [|split; [|split; [apply Hcount | split; [apply Hcount|]]]].
  - unfold main, set_cpu_clock_cp.
    cbv [H1CP_CLOCK_FREQ CYHAL_API_VERSION COMPONENT_CAT5].
    assert (Hg : forall freq, f = Some freq -> (v >=? 2) = true ->
                 lo "cyhal_clock_get" = 0 /\ lo "cyhal_clock_set_frequency" = 0).
    { intros freq E Hv. rewrite Z.geb_le in Hv. exact (Hclk freq E Hv). }
    clear Hclk Hcount. subst pre.
    destruct c; (destruct f as [freq|]; [destruct (v >=? 2) eqn:Hv|]);
      try (destruct (Hg freq eq_refl eq_refl) as [Hg1 Hg2]);
      eval_library; rewrite Hb; cbv [CY_RSLT_SUCCESS Z.eqb negb]; eval_library;
      try (rewrite Hg1; cbv [Z.eqb]; eval_library; rewrite Hg2;
           cbv [CY_ASSERT Z.eqb negb]; eval_library);
      rewrite Ht; cbv [Z.eqb negb]; eval_library;
      cbn [app]; rewrite <- ?app_assoc; reflexivity.
  - reflexivity.
  - repeat split.
Qed.

Lemma main_ignores_retarget_io_result_witness :
  library_outcome
    (mk_world conn_params_zero timer_uninit false 0 never_associates 0
              (fun n => if String.eqb n "cy_retarget_io_init" then 5 else 0) [])
    "cybsp_init" = CY_RSLT_SUCCESS /\
  (forall freq,
     H1CP_CLOCK_FREQ (mk_build_config (Some 96000000) 2 true) = Some freq ->
     2 <= CYHAL_API_VERSION (mk_build_config (Some 96000000) 2 true) ->
     library_outcome
       (mk_world conn_params_zero timer_uninit false 0 never_associates 0
                 (fun n => if String.eqb n "cy_retarget_io_init" then 5 else 0) [])
       "cyhal_clock_get" = CY_RSLT_SUCCESS /\
     library_outcome
       (mk_world conn_params_zero timer_uninit false 0 never_associates 0
                 (fun n => if String.eqb n "cy_retarget_io_init" then 5 else 0) [])
       "cyhal_clock_set_frequency" = CY_RSLT_SUCCESS) /\
  library_outcome
    (mk_world conn_params_zero timer_uninit false 0 never_associates 0
              (fun n => if String.eqb n "cy_retarget_io_init" then 5 else 0) [])
    "cy_rtos_thread_create" = CY_RSLT_SUCCESS /\
  exists w' (pre : list event),
    main (mk_build_config (Some 96000000) 2 true) 10
      (mk_world conn_params_zero timer_uninit false 0 never_associates 0
                (fun n => if String.eqb n "cy_retarget_io_init" then 5 else 0) [])
      = (Done 0, w') /\
    trace w' =
      trace (mk_world conn_params_zero timer_uninit false 0 never_associates 0
                      (fun n => if String.eqb n "cy_retarget_io_init" then 5 else 0) [])
      ++ pre ++
      [Call_library "cy_retarget_io_init"
         (library_outcome
            (mk_world conn_params_zero timer_uninit false 0 never_associates 0
                      (fun n => if String.eqb n "cy_retarget_io_init" then 5 else 0) [])
            "cy_retarget_io_init");
       Call_printf "\x1b[2J\x1b[;H" [];
       Call_printf main_banner [];
       Call_library "cy_rtos_thread_create" 0] /\
    count (is_library "cy_rtos_thread_create") pre = 0%nat /\
    count (is_library "cy_retarget_io_init") pre = 0%nat /\
    unchanged_but_trace
      (mk_world conn_params_zero timer_uninit false 0 never_associates 0
                (fun n => if String.eqb n "cy_retarget_io_init" then 5 else 0) []) w'.
Proof.
  split; [reflexivity|]. split; [intros freq _ _; split; reflexivity|].
  split; [reflexivity|].
  apply (main_ignores_retarget_io_result (mk_build_config (Some 96000000) 2 true) 10
           (mk_world conn_params_zero timer_uninit false 0 never_associates 0
                     (fun n => if String.eqb n "cy_retarget_io_init" then 5 else 0) []));
    [reflexivity | intros freq _ _; split; reflexivity | reflexivity].
Defined.

(** ** get_ip_string: reading the address back *)

Lemma ip_of_fields_ip_fields (ip : Z) :
  0 <= ip < 2 ^ 32 -> ip_of_fields (ip_fields ip) = ip.
Proof.
  intros H. unfold ip_of_fields, ip_fields.
  change 255 with (Z.ones 8). rewrite !Z.land_ones by lia.
  rewrite !Z.shiftr_div_pow2 by lia.
  change (2 ^ 8) with 256. change (2 ^ 16) with 65536. change (2 ^ 24) with 16777216.
  change (2 ^ 32) with 4294967296 in H.
  Z.div_mod_to_equations. lia.
Qed.

(** X16. The text written by [get_ip_string] determines the 32-bit address: read
    back as [d.d.d.d], with the first field as the least significant byte, it
    gives the address again; two different addresses never print alike. *)
Theorem ip_text_round_trip (ip ip' : Z) :
  0 <= ip < 2 ^ 32 -> 0 <= ip' < 2 ^ 32 ->
  option_map ip_of_fields (parse_dotted_quad (ip_text ip)) = Some ip /\
  (ip_text ip = ip_text ip' -> ip = ip').
Proof.
  intros H H'.
  assert (R : forall x, 0 <= x < 2 ^ 32 ->
                option_map ip_of_fields (parse_dotted_quad (ip_text x)) = Some x).
  { intros x Hx. rewrite parse_ip_text. cbn [option_map].
    rewrite ip_of_fields_ip_fields by exact Hx. reflexivity. }
  split; [exact (R ip H)|].
  intros E. pose proof (R ip H) as R1. rewrite E, (R ip' H') in R1.
  inversion R1. reflexivity.
Qed.

Lemma ip_text_round_trip_witness :
  0 <= 16885952 < 2 ^ 32 /\ 0 <= 3232235777 < 2 ^ 32 /\
  option_map ip_of_fields (parse_dotted_quad (ip_text 16885952)) = Some 16885952 /\
  (ip_text 16885952 = ip_text 3232235777 -> 16885952 = 3232235777).
Proof.
  split; [lia|]. split; [lia|].
  apply (ip_text_round_trip 16885952 3232235777); lia.
Defined.

Lemma octet_canonical_all : forallb octet_canonical octets = true.
Proof. vm_compute. reflexivity. Qed.

(** X17. The fields are printed without padding and without leading zeros: a
    field below 10 takes one character, a field below 100 two, any other
    three, so the text has 3 dots plus the digits of its four fields. *)
Theorem ip_text_not_padded (ip : Z) :
  let '(a, b, c, d) := ip_fields ip in
  String.length (ip_text ip)
    = (3 + octet_digits a + octet_digits b + octet_digits c + octet_digits d)%nat /\
  leading_zero (fmt_lu a) = false /\ leading_zero (fmt_lu b) = false /\
  leading_zero (fmt_lu c) = false /\ leading_zero (fmt_lu d) = false.
Proof.
  unfold ip_fields.
  assert (C : forall v, 0 <= v < 256 ->
                String.length (fmt_lu v) = octet_digits v /\ leading_zero (fmt_lu v) = false).
  { intros v Hv. pose proof (octets_forall _ octet_canonical_all v Hv) as H.
    unfold octet_canonical in H. apply andb_true_iff in H. destruct H as [H1 H2].
    apply Nat.eqb_eq in H1. apply negb_true_iff in H2. split; assumption. }
  destruct (C _ (land_255_range ip)) as [L0 Z0].
  destruct (C _ (land_255_range (Z.shiftr ip 8))) as [L1 Z1].
  destruct (C _ (land_255_range (Z.shiftr ip 16))) as [L2 Z2].
  destruct (C _ (land_255_range (Z.shiftr ip 24))) as [L3 Z3].
  split; [|repeat split; assumption].
  rewrite ip_text_unfold. repeat (rewrite string_length_append; cbn [String.length]).
  rewrite L0, L1, L2, L3. lia.
Qed.

Example ip_text_zero : ip_text 0 = "0.0.0.0".
Proof. reflexivity. Qed.

(** ** Further properties of the handlers and of main *)

(** X5. What [ConnectWifi] returns and what it emits depend on the outcomes of
    the first 15 associate calls only: not on the previous contents of
    [conn_params], on the association state, on the timer or on the trace. *)
Theorem ConnectWifi_depends_only_on_outcomes
    (fuel1 fuel2 : nat) (profile : cy_wcm_itwt_profile_t) (w1 w2 : world) :
  (15 <= fuel1)%nat -> (15 <= fuel2)%nat ->
  (forall i, (i < 15)%nat -> associate_outcomes w1 i = associate_outcomes w2 i) ->
  exists r evs w1' w2',
    ConnectWifi fuel1 profile w1 = (Done r, w1') /\
    ConnectWifi fuel2 profile w2 = (Done r, w2') /\
    trace w1' = trace w1 ++ evs /\
    trace w2' = trace w2 ++ evs /\
    conn_params w1' = conn_params w2'.
Proof.
  intros H1 H2 Heq.
  destruct (ConnectWifi_total fuel1 profile w1 H1) as (k & ok & Hshape & Hrun1).
  assert (Hshape2 : run_shape (associate_outcomes w2) k ok).
  { destruct Hshape as (Hk & Hfail & Hlast). split; [exact Hk|]. split.
    - intros i Hi. rewrite <- Heq by lia. apply Hfail, Hi.
    - rewrite <- Heq by lia. exact Hlast. }
  pose proof (ConnectWifi_run fuel2 profile w2 k ok H2 Hshape2) as Hrun2.
  exists (loop_result ok), (ConnectWifi_events profile (associate_outcomes w1) k ok).
  eexists _, _. split; [exact Hrun1|]. split; [exact Hrun2|].
  split; [reflexivity|]. split; [|reflexivity].
  cbn [trace ConnectWifi_world]. f_equal.
  unfold ConnectWifi_events, loop_events. destruct Hshape as (Hk & _).
  rewrite (Heq k Hk). f_equal. f_equal. f_equal.
  apply map_ext_in. intros i Hi. apply in_seq in Hi. symmetry. apply Heq. lia.
Qed.

Lemma ConnectWifi_depends_only_on_outcomes_witness :
  (15 <= 15)%nat /\ (15 <= 40)%nat /\
  (forall i, (i < 15)%nat ->
     associate_outcomes (world0 false 0 (associates_at 2 16885952) 0) i =
     associate_outcomes (world0 true 9 (associates_at 2 16885952) 4) i) /\
  exists r evs w1' w2',
    ConnectWifi 15 CY_WCM_ITWT_PROFILE_IDLE (world0 false 0 (associates_at 2 16885952) 0)
      = (Done r, w1') /\
    ConnectWifi 40 CY_WCM_ITWT_PROFILE_IDLE (world0 true 9 (associates_at 2 16885952) 4)
      = (Done r, w2') /\
    trace w1' = trace (world0 false 0 (associates_at 2 16885952) 0) ++ evs /\
    trace w2' = trace (world0 true 9 (associates_at 2 16885952) 4) ++ evs /\
    conn_params w1' = conn_params w2'.
Proof.
  split; [lia|]. split; [lia|]. split; [intros i _; reflexivity|].
  apply (ConnectWifi_depends_only_on_outcomes 15 40 CY_WCM_ITWT_PROFILE_IDLE
           (world0 false 0 (associates_at 2 16885952) 0)
           (world0 true 9 (associates_at 2 16885952) 4));
    [lia | lia | intros i _; reflexivity].
Defined.

(** X8. With [argc < 1] the handler [itwt_setup] prints its usage message and
    returns -1: it does not ask for the association state, it makes no other
    call, and it does not read [argv], which may be empty. *)
Theorem itwt_setup_usage_error (fuel : nat) (argc : Z) (argv : list string) (w : world) :
  argc < 1 ->
  exists w',
    itwt_setup fuel argc argv w = (Done (-1), w') /\
    trace w' = trace w ++
      [Call_printf "Insufficient number of arguments. Command format: itwt_setup <profile>\n"
                   []] /\
    unchanged_but_trace w w'.
Proof.
  intros H. rewrite (itwt_setup_guard fuel argc argv w H).
  eexists. split; [reflexivity|]. split; [reflexivity | repeat split].
Qed.

Lemma itwt_setup_usage_error_witness :
  0 < 1 /\
  exists w',
    itwt_setup 15 0 [] (world0 true 0 never_associates 0) = (Done (-1), w') /\
    trace w' = trace (world0 true 0 never_associates 0) ++
      [Call_printf "Insufficient number of arguments. Command format: itwt_setup <profile>\n"
                   []] /\
    unchanged_but_trace (world0 true 0 never_associates 0) w'.
Proof.
  split; [lia|].
  apply (itwt_setup_usage_error 15 0 [] (world0 true 0 never_associates 0)). lia.
Defined.

(** X15. [main] returns, with the value 0, only after the board, the CPU clock
    (when its setting is compiled in) and the console thread were set up
    successfully: after any of these failures it does not return. *)
Theorem main_returns_only_after_checked_initializations
    (cfg : build_config) (fuel : nat) (w w' : world) (code : Z) :
  main cfg fuel w = (Done code, w') ->
  code = 0 /\
  library_outcome w "cybsp_init" = CY_RSLT_SUCCESS /\
  library_outcome w "cy_rtos_thread_create" = CY_RSLT_SUCCESS /\
  (forall freq, H1CP_CLOCK_FREQ cfg = Some freq -> 2 <= CYHAL_API_VERSION cfg ->
     library_outcome w "cyhal_clock_get" = CY_RSLT_SUCCESS /\
     library_outcome w "cyhal_clock_set_frequency" = CY_RSLT_SUCCESS).
Proof.
  destruct w as [cp tm ac dc ao td lo tr]. destruct cfg as [f v c].
  cbn [library_outcome H1CP_CLOCK_FREQ CYHAL_API_VERSION COMPONENT_CAT5].
  unfold main, set_cpu_clock_cp.
  cbv [H1CP_CLOCK_FREQ CYHAL_API_VERSION COMPONENT_CAT5]. unfold CY_RSLT_SUCCESS.
  destruct (lo "cybsp_init" =? 0) eqn:Eb;
    destruct (lo "cy_rtos_thread_create" =? 0) eqn:Et;
    (destruct f as [freq|];
     [destruct (v >=? 2) eqn:Hv;
      [destruct (0 =? lo "cyhal_clock_get") eqn:Eg;
       [destruct (lo "cyhal_clock_set_frequency" =? 0) eqn:Es|]|]|]);
    destruct c;
    eval_library;
    repeat (first [rewrite Eb | rewrite Et | rewrite Eg | rewrite Es
                  | rewrite (Z.eqb_sym (lo "cyhal_clock_get") 0), Eg
                  | rewrite CY_HALT_never_returns];
            cbv [negb CY_ASSERT]; eval_library);
    intros Hrun; try discriminate Hrun;
    inversion Hrun; (split; [reflexivity|]);
    (split; [apply Z.eqb_eq; exact Eb|]);
    (split; [apply Z.eqb_eq; exact Et|]);
    intros freq' Hf Hv'; try discriminate Hf;
    try (rewrite Z.geb_leb in Hv; apply Z.leb_gt in Hv; lia);
    (split; [symmetry; apply Z.eqb_eq; exact Eg | apply Z.eqb_eq; exact Es]).
Qed.

Lemma main_returns_only_after_checked_initializations_witness :
  main (mk_build_config None 1 false) 5 (world0 false 0 never_associates 0)
    = (Done 0, snd (main (mk_build_config None 1 false) 5 (world0 false 0 never_associates 0))) /\
  0 = 0 /\
  library_outcome (world0 false 0 never_associates 0) "cybsp_init" = CY_RSLT_SUCCESS /\
  library_outcome (world0 false 0 never_associates 0) "cy_rtos_thread_create"
    = CY_RSLT_SUCCESS /\
  (forall freq, H1CP_CLOCK_FREQ (mk_build_config None 1 false) = Some freq ->
     2 <= CYHAL_API_VERSION (mk_build_config None 1 false) ->
     library_outcome (world0 false 0 never_associates 0) "cyhal_clock_get"
       = CY_RSLT_SUCCESS /\
     library_outcome (world0 false 0 never_associates 0) "cyhal_clock_set_frequency"
       = CY_RSLT_SUCCESS).
Proof.
  split; [vm_compute; reflexivity|].
  apply (main_returns_only_after_checked_initializations
           (mk_build_config None 1 false) 5 (world0 false 0 never_associates 0)
           (snd (main (mk_build_config None 1 false) 5 (world0 false 0 never_associates 0))) 0).
  vm_compute; reflexivity.
Defined.
